(** * Presentation composition engine: style registry, PPTX exporter, HTML renderer

    A shallow embedding of [src/styles.py], [src/exporter.py],
    [src/renderer.py] and of the style-key normalisation of
    [nano_banana_app.py], followed by the properties of the two output paths.

    Python values are modelled as follows: [str] as [string] (a sequence of
    characters), [int] as [Z] (positions and counts as [nat]), [dict] with
    string keys as [gmap string _], [Optional[str]] as [option string], and
    a call that may raise as a value of [Result]. *)

From Stdlib Require Import ZArith Ascii String DecimalString DecimalNat.
From stdpp Require Import base option list strings gmap.

Local Open Scope string_scope.
Local Open Scope Z_scope.

(** ** Exceptions *)

Inductive PyExc : Type :=
| ValueError
| IndexError
| BinasciiError
| ImageError
| OSError.

Inductive Result (A : Type) : Type :=
| Ok (a : A)
| Raised (e : PyExc).
Arguments Ok {A} a.
Arguments Raised {A} e.

Definition rbind {A B} (m : Result A) (k : A -> Result B) : Result B :=
  match m with
  | Ok a => k a
  | Raised e => Raised e
  end.

Notation "x <-! m ; k" := (rbind m (fun x => k))
  (at level 100, m at next level, right associativity).

(** [try: body / except Exception: handler] for a body computing a value. *)
Definition try_except {A} (body : Result A) (handler : A) : A :=
  match body with
  | Ok a => a
  | Raised _ => handler
  end.

Definition is_ok {A} (m : Result A) : bool :=
  match m with Ok _ => true | Raised _ => false end.

(** ** Python built-ins used by the sources *)

Module Py.

(** Truthiness of an [Optional[str]]: [None] and the empty string are false. *)
Definition truthy (o : option string) : bool :=
  match o with
  | None => false
  | Some EmptyString => false
  | Some (String _ _) => true
  end.

(** [s.lstrip(c)] for a one-character argument: drops every leading [c]. *)
Fixpoint lstrip (c : ascii) (s : string) : string :=
  match s with
  | String a rest => if Ascii.eqb a c then lstrip c rest else s
  | EmptyString => EmptyString
  end.

(** [s[i:j]] for [0 <= i <= j]; out-of-range bounds are clipped. *)
Fixpoint drop_chars (n : nat) (s : string) : string :=
  match n, s with
  | O, _ => s
  | S n', String _ rest => drop_chars n' rest
  | S _, EmptyString => EmptyString
  end.

Fixpoint take_chars (n : nat) (s : string) : string :=
  match n, s with
  | S n', String a rest => String a (take_chars n' rest)
  | _, _ => EmptyString
  end.

Definition slice (s : string) (i j : nat) : string :=
  take_chars (j - i) (drop_chars i s).

(** [c in s] for a one-character [c]. *)
Fixpoint contains (c : ascii) (s : string) : bool :=
  match s with
  | EmptyString => false
  | String a rest => Ascii.eqb a c || contains c rest
  end.

(** [s.split(c)] for a one-character separator: always at least one field. *)
Fixpoint split_aux (c : ascii) (cur : string) (s : string) : list string :=
  match s with
  | EmptyString => [cur]
  | String a rest =>
      if Ascii.eqb a c then cur :: split_aux c EmptyString rest
      else split_aux c (cur +:+ String a EmptyString) rest
  end.

Definition split (c : ascii) (s : string) : list string :=
  split_aux c EmptyString s.

(** *** [int(s, 16)] *)

Definition hex_digits : list (ascii * Z) :=
  [("0"%char, 0); ("1"%char, 1); ("2"%char, 2); ("3"%char, 3);
   ("4"%char, 4); ("5"%char, 5); ("6"%char, 6); ("7"%char, 7);
   ("8"%char, 8); ("9"%char, 9);
   ("a"%char, 10); ("b"%char, 11); ("c"%char, 12); ("d"%char, 13);
   ("e"%char, 14); ("f"%char, 15);
   ("A"%char, 10); ("B"%char, 11); ("C"%char, 12); ("D"%char, 13);
   ("E"%char, 14); ("F"%char, 15)].

Fixpoint assoc_char (c : ascii) (l : list (ascii * Z)) : option Z :=
  match l with
  | [] => None
  | (a, v) :: rest => if Ascii.eqb a c then Some v else assoc_char c rest
  end.

Definition hex_value (c : ascii) : option Z := assoc_char c hex_digits.

Definition is_hex_digit (c : ascii) : bool :=
  match hex_value c with Some _ => true | None => false end.

(** White space as [int] sees it: tab, line feed, vertical tab, form feed,
    carriage return, the four separators FS GS RS US, and space. *)
Definition is_space (c : ascii) : bool :=
  let n := nat_of_ascii c in
  ((9 <=? n)%nat && (n <=? 13)%nat) || ((28 <=? n)%nat && (n <=? 32)%nat).

Fixpoint skip_spaces (s : string) : string :=
  match s with
  | String a rest => if is_space a then skip_spaces rest else s
  | EmptyString => EmptyString
  end.

(** The digit scanner of [int]: hexadecimal digits, with single underscores
    allowed between them.  [prev_us] records that the previous character was
    an underscore, [ndigits] counts the digits read.  It stops at the first
    character that is neither, and returns the remainder. *)
Fixpoint scan_hex (s : string) (acc : Z) (prev_us : bool) (ndigits : nat)
  : option (Z * string) :=
  match s with
  | String a rest =>
      match hex_value a with
      | Some v => scan_hex rest (16 * acc + v) false (S ndigits)
      | None =>
          if Ascii.eqb a "_"%char then
            if prev_us then None else scan_hex rest acc true ndigits
          else
            if prev_us then None
            else match ndigits with O => None | S _ => Some (acc, s) end
      end
  | EmptyString =>
      if prev_us then None
      else match ndigits with O => None | S _ => Some (acc, s) end
  end.

(** Optional [0x] / [0X] prefix, which may be followed by one underscore. *)
Definition skip_hex_prefix (s : string) : string :=
  match s with
  | String "0"%char (String x rest) =>
      if Ascii.eqb x "x"%char || Ascii.eqb x "X"%char then
        match rest with
        | String "_"%char rest' => rest'
        | _ => rest
        end
      else s
  | _ => s
  end.

Definition starts_with_underscore (s : string) : bool :=
  match s with
  | String a _ => Ascii.eqb a "_"%char
  | EmptyString => false
  end.

(** [int(s, 16)]: [None] stands for [ValueError]. *)
Definition int16 (s : string) : option Z :=
  let s1 := skip_spaces s in
  let '(neg, s2) :=
    match s1 with
    | String "+"%char rest => (false, rest)
    | String "-"%char rest => (true, rest)
    | _ => (false, s1)
    end in
  let s3 := skip_hex_prefix s2 in
  if starts_with_underscore s3 then None
  else
    match scan_hex s3 0 false O with
    | Some (v, rest) =>
        match skip_spaces rest with
        | EmptyString => Some (if neg then - v else v)
        | String _ _ => None
        end
    | None => None
    end.

(** *** [str(n)], [str.zfill] and ["%02d" % n] *)

Definition str_nat (n : nat) : string :=
  NilZero.string_of_uint (Nat.to_uint n).

(** [str(z)] for an integer. *)
Definition str (z : Z) : string :=
  if z <? 0 then String "-"%char (str_nat (Z.abs_nat z))
  else str_nat (Z.abs_nat z).

Fixpoint zeros (n : nat) : string :=
  match n with
  | O => EmptyString
  | S n' => String "0"%char (zeros n')
  end.

(** [s.zfill(width)]: pads on the left with ['0'] up to [width]; a leading
    sign stays in front of the padding. *)
Definition zfill (width : nat) (s : string) : string :=
  if (width <=? String.length s)%nat then s
  else
    let fill := (width - String.length s)%nat in
    match s with
    | String a rest =>
        if Ascii.eqb a "+"%char || Ascii.eqb a "-"%char
        then String a (zeros fill +:+ rest)
        else zeros fill +:+ s
    | EmptyString => zeros fill
    end.

(** ["%02d" % z]: decimal digits, zero-padded to a total width of two, the
    sign counted in the width and written first. *)
Definition format_02d (z : Z) : string :=
  let sign := if z <? 0 then "-" else "" in
  let digits := str_nat (Z.abs_nat z) in
  sign +:+ zeros (2 - String.length sign - String.length digits)%nat +:+ digits.

End Py.

(** ** [src/styles.py] *)

(** [class StyleType(str, Enum)]. *)
Inductive StyleType : Type :=
| DEFAULT
| TAIPEI_METRO
| MODERN_CAFE
| MINIMAL_CONCRETE
| WARM_WOOD
| TECH_GRADIENT
| FLAT_INFOGRAPHIC.

(** The member's [value]; as the enumeration mixes in [str], a member hashes
    and compares as this string. *)
Definition value (t : StyleType) : string :=
  match t with
  | DEFAULT => "default"
  | TAIPEI_METRO => "taipei_metro"
  | MODERN_CAFE => "modern_cafe"
  | MINIMAL_CONCRETE => "minimal_concrete"
  | WARM_WOOD => "warm_wood"
  | TECH_GRADIENT => "tech_gradient"
  | FLAT_INFOGRAPHIC => "flat_infographic"
  end.

(** [[s for s in StyleType]], in definition order. *)
Definition StyleType_members : list StyleType :=
  [DEFAULT; TAIPEI_METRO; MODERN_CAFE; MINIMAL_CONCRETE; WARM_WOOD;
   TECH_GRADIENT; FLAT_INFOGRAPHIC].

Record StyleProfile : Type := {
  name : string;
  layout_template_name : string;
  base_prompt_modifier : string;
  logic_color_map : gmap string string;
  mascot_actions : gmap string string
}.

Definition color_map (opening reasons examples closing dflt : string)
  : gmap string string :=
  list_to_map
    [("point_opening", opening); ("reasons", reasons); ("examples", examples);
     ("point_closing", closing); ("default", dflt)].

Definition METRO_STYLE : StyleProfile := {|
  name := "Taipei Metro";
  layout_template_name := "metro";
  base_prompt_modifier :=
    "Style: Clean, bright, professional public transport signage aesthetic. "
    +:+ "Background: Minimalist white subway station environment, glossy textures, wide angle, "
    +:+ "abstract geometric patterns inspired by metro maps. "
    +:+ "Composition: Leave ample white space in the center for text overlay. "
    +:+ "Constraint: NO TEXT, NO WATERMARKS, NO CHARACTERS, professional corporate style only.";
  logic_color_map := color_map "#E3002C" "#C48C31" "#0070BD" "#008659" "#333333";
  mascot_actions := ∅
|}.

Definition MODERN_CAFE_STYLE : StyleProfile := {|
  name := "Modern Cafe";
  layout_template_name := "metro";
  base_prompt_modifier :=
    "Style: Cozy modern cafe interior, natural lighting from large windows, professional atmosphere. "
    +:+ "Background: Wooden furniture, hanging plants, soft beige walls, warm atmosphere. "
    +:+ "Lighting: Soft morning sunlight, warm tones. "
    +:+ "Composition: Minimalist with central space for content. "
    +:+ "Constraint: NO TEXT, NO WATERMARKS, NO CHARACTERS in the image.";
  logic_color_map := color_map "#8B4513" "#D2691E" "#6B8E23" "#CD853F" "#5D4E37";
  mascot_actions := ∅
|}.

Definition MINIMAL_CONCRETE_STYLE : StyleProfile := {|
  name := "Minimal Concrete";
  layout_template_name := "metro";
  base_prompt_modifier :=
    "Style: Minimalist concrete architecture, industrial aesthetic, professional corporate feel. "
    +:+ "Background: Smooth concrete walls, subtle shadows, geometric shapes. "
    +:+ "Lighting: Soft diffused natural light, monochromatic tones. "
    +:+ "Composition: Architectural minimalism with central focus area. "
    +:+ "Constraint: NO TEXT, NO WATERMARKS, NO CHARACTERS in the image.";
  logic_color_map := color_map "#708090" "#2F4F4F" "#696969" "#778899" "#808080";
  mascot_actions := ∅
|}.

Definition WARM_WOOD_STYLE : StyleProfile := {|
  name := "Warm Wood";
  layout_template_name := "metro";
  base_prompt_modifier :=
    "Style: Warm wooden interior, Scandinavian design aesthetic, professional setting. "
    +:+ "Background: Natural wood panels, soft fabric textures, indoor plants. "
    +:+ "Lighting: Warm ambient light, cozy yet professional atmosphere. "
    +:+ "Composition: Clean layout with central content area. "
    +:+ "Constraint: NO TEXT, NO WATERMARKS, NO CHARACTERS in the image.";
  logic_color_map := color_map "#DEB887" "#CD853F" "#8FBC8F" "#F4A460" "#D2B48C";
  mascot_actions := ∅
|}.

Definition TECH_GRADIENT_STYLE : StyleProfile := {|
  name := "Tech Gradient";
  layout_template_name := "metro";
  base_prompt_modifier :=
    "Style: Modern tech aesthetic with smooth gradients, futuristic professional feel. "
    +:+ "Background: Flowing gradient colors (blue to purple to pink), subtle geometric patterns. "
    +:+ "Lighting: Soft neon glow, digital atmosphere. "
    +:+ "Composition: Tech-inspired layout with focus on data visualization aesthetic. "
    +:+ "Constraint: NO TEXT, NO WATERMARKS, NO CHARACTERS in the image.";
  logic_color_map := color_map "#667EEA" "#764BA2" "#F093FB" "#4FACFE" "#7F7FD5";
  mascot_actions := ∅
|}.

Definition FLAT_INFOGRAPHIC_STYLE : StyleProfile := {|
  name := "Flat Infographic";
  layout_template_name := "metro";
  base_prompt_modifier :=
    "Style: Modern flat design with vector graphics and bold outlines. "
    +:+ "Background: Clean infographic layout with geometric shapes, icons, and subtle patterns. "
    +:+ "Visual elements: Simple line art, bold strokes (3-4px), professional business icons. "
    +:+ "Composition: Minimalist composition with clear visual hierarchy. "
    +:+ "Color palette: Professional corporate colors with high contrast. "
    +:+ "Aesthetic: Corporate presentation style, isometric elements optional. "
    +:+ "Constraint: NO TEXT, NO WATERMARKS, pure vector-style visual background only.";
  logic_color_map := color_map "#2563EB" "#DC2626" "#059669" "#7C3AED" "#1E293B";
  mascot_actions := ∅
|}.

(** A key handed to the registry: a plain string or an enumeration member. *)
Inductive StyleKey : Type :=
| KeyStr (s : string)
| KeyEnum (t : StyleType).

(** The string a key hashes and compares as. *)
Definition key_string (k : StyleKey) : string :=
  match k with
  | KeyStr s => s
  | KeyEnum t => value t
  end.

Module StyleRegistry.

(** [_styles]: six entries, keyed by enumeration member. *)
Definition _styles : gmap string StyleProfile :=
  list_to_map
    [(value TAIPEI_METRO, METRO_STYLE);
     (value MODERN_CAFE, MODERN_CAFE_STYLE);
     (value MINIMAL_CONCRETE, MINIMAL_CONCRETE_STYLE);
     (value WARM_WOOD, WARM_WOOD_STYLE);
     (value TECH_GRADIENT, TECH_GRADIENT_STYLE);
     (value FLAT_INFOGRAPHIC, FLAT_INFOGRAPHIC_STYLE)].

(** [cls._styles.get(style_type, METRO_STYLE)]. *)
Definition get (style_type : StyleKey) : StyleProfile :=
  default METRO_STYLE (_styles !! key_string style_type).

End StyleRegistry.

(** ** Style-key normalisation of [nano_banana_app.py] *)

(** [old_style_map]: deprecated keys and their current members. *)
Definition old_style_map : gmap string StyleType :=
  list_to_map
    [("professional", TAIPEI_METRO);
     ("creative", MODERN_CAFE);
     ("minimal", MINIMAL_CONCRETE);
     ("tech", TECH_GRADIENT);
     ("warm", WARM_WOOD)].

(** The statement that rewrites [slide["style"]] in the slide editor: a value
    that is no member value of [StyleType] is replaced by its entry in
    [old_style_map], or by [TAIPEI_METRO] when it has none. *)
Definition remap_style (style : StyleKey) : StyleKey :=
  if bool_decide (key_string style ∈ value <$> StyleType_members)
  then style
  else KeyEnum (default TAIPEI_METRO (old_style_map !! key_string style)).

(** ** Slide records *)

(** Modelled from the spec: [src/models.py] is not among the sources; the
    fields are those its callers pass and read ([slide_id],
    [framework_section], [title], [body_text], [background_image_base64],
    [rationale]), the image payload and the rationale being optional. *)
Record SlideContent : Type := {
  slide_id : string;
  framework_section : string;
  title : string;
  body_text : string;
  background_image_base64 : option string;
  rationale : option string
}.

(** ** [src/exporter.py] *)

(** *** The objects of the presentation library the exporter builds *)

(** [RGBColor]: three channels. *)
Record RGBColor : Type := { red : Z; green : Z; blue : Z }.

(** [RGBColor(r, g, b)] refuses a channel outside 0..255 with [ValueError]. *)
Definition new_RGBColor (r g b : Z) : Result RGBColor :=
  if forallb (fun v => (0 <=? v) && (v <=? 255)) [r; g; b]
  then Ok {| red := r; green := g; blue := b |}
  else Raised ValueError.

Inductive MSO_SHAPE : Type := RECTANGLE | ROUNDED_RECTANGLE | OVAL.

Inductive PP_ALIGN : Type := CENTER.

(** Outline of a shape: as created, removed by [line.fill.background()], or
    given a colour and a width. *)
Inductive LineFormat : Type :=
| LineInherited
| LineNone
| LineSolid (color : RGBColor) (line_width : Z).

Record Paragraph : Type := {
  p_text : string;
  p_font_name : option string;
  p_font_size : Z;
  p_font_bold : bool;
  p_font_color : RGBColor;
  p_alignment : option PP_ALIGN
}.

Record TextFrame : Type := {
  tf_paragraph : Paragraph;
  tf_word_wrap : option bool;
  tf_margin_top : option Z;
  tf_vertical_anchor : option Z
}.

(** An auto shape with a solid fill.  [fill_transparency] is the value
    assigned to [fill.transparency], in percent. *)
Record AutoShape : Type := {
  auto_shape_type : MSO_SHAPE;
  shape_left : Z;
  shape_top : Z;
  shape_width : Z;
  shape_height : Z;
  fill_rgb : RGBColor;
  fill_transparency : option Z;
  line : LineFormat;
  shadow_inherit : bool;
  text_frame : option TextFrame
}.

Inductive Shape : Type :=
| Picture (blob : string) (pic_left pic_top pic_width pic_height : Z)
| Auto (a : AutoShape)
| TextBox (box_left box_top box_width box_height : Z) (tf : TextFrame).

(** A slide is its shape tree, bottom shape first. *)
Definition Slide : Type := list Shape.

Definition add_shape (slide : Slide) (s : Shape) : Slide := (slide ++ [s])%list.

Record Presentation : Type := {
  slide_width : Z;
  slide_height : Z;
  slides : list Slide
}.

(** Lengths in English Metric Units: [Inches(x)] is [int(x * 914400)] and
    [Pt(x)] is [int(x * 12700)]; the constants below are those values for
    the fractional literals of the source. *)
Module Emu.
Definition in_13_333 : Z := 12191695.
Definition in_7_5 : Z := 6858000.
Definition in_1_2 : Z := 1097280.
Definition in_1_65 : Z := 1508760.
Definition in_9 : Z := 8229600.
Definition in_1_1 : Z := 1005840.
Definition in_2_95 : Z := 2697480.
Definition in_3_2 : Z := 2926080.
Definition in_1_4 : Z := 1280160.
Definition in_1_75 : Z := 1600200.
Definition in_8_6 : Z := 7863840.
Definition in_0_9 : Z := 822960.
Definition in_0_08 : Z := 73152.
Definition in_1_5 : Z := 1371600.
Definition in_3_15 : Z := 2880360.
Definition in_8_3 : Z := 7589520.
Definition in_2_8 : Z := 2560320.
Definition in_0_18 : Z := 164592.
Definition in_0_5 : Z := 457200.
Definition in_0_75 : Z := 685800.
Definition in_0_15 : Z := 137160.
Definition in_0_12 : Z := 109728.
Definition in_0_35 : Z := 320040.
Definition pt_2_5 : Z := 31750.
End Emu.

(** [Pt(n)] for a whole number of points. *)
Definition Pt (points : Z) : Z := points * 12700.

Definition white : RGBColor := {| red := 255; green := 255; blue := 255 |}.

Module PptxExporter.

(** [__init__]: the 16:9 page. *)
Definition width : Z := Emu.in_13_333.
Definition height : Z := Emu.in_7_5.

(** [_hex_to_rgb]. *)
Definition int16_or_raise (s : string) : Result Z :=
  match Py.int16 s with
  | Some v => Ok v
  | None => Raised ValueError
  end.

Definition _hex_to_rgb (hex_color : string) : Result RGBColor :=
  let h := Py.lstrip "#" hex_color in
  r <-! int16_or_raise (Py.slice h 0 2);
  g <-! int16_or_raise (Py.slice h 2 4);
  b <-! int16_or_raise (Py.slice h 4 6);
  new_RGBColor r g b.

(** [_add_text]. *)
Definition _add_text (text : string) (size : Z) (bold : bool)
    (color : RGBColor) : TextFrame :=
  {| tf_paragraph :=
       {| p_text := text;
          p_font_name := Some "Microsoft JhengHei";
          p_font_size := Pt size;
          p_font_bold := bold;
          p_font_color := color;
          p_alignment := None |};
     tf_word_wrap := Some true;
     tf_margin_top := None;
     tf_vertical_anchor := None |}.

(** [_draw_text_content]: title panel, body panel, title text, accent tab,
    body text, in this order. *)
Definition glass_panel (top h transparency : Z) : Shape :=
  Auto {| auto_shape_type := ROUNDED_RECTANGLE;
          shape_left := Emu.in_1_2; shape_top := top;
          shape_width := Emu.in_9; shape_height := h;
          fill_rgb := white; fill_transparency := Some transparency;
          line := LineNone; shadow_inherit := false; text_frame := None |}.

Definition _draw_text_content (slide : Slide) (content : SlideContent)
    (rgb_color : RGBColor) : Slide :=
  let slide := add_shape slide (glass_panel Emu.in_1_65 Emu.in_1_1 4) in
  let slide := add_shape slide (glass_panel Emu.in_2_95 Emu.in_3_2 6) in
  let slide :=
    add_shape slide
      (TextBox Emu.in_1_4 Emu.in_1_75 Emu.in_8_6 Emu.in_0_9
         (_add_text (title content) 44 true
            {| red := 26; green := 26; blue := 26 |})) in
  let slide :=
    add_shape slide
      (Auto {| auto_shape_type := RECTANGLE;
               shape_left := Emu.in_1_2; shape_top := Emu.in_1_65;
               shape_width := Emu.in_0_08; shape_height := Emu.in_1_1;
               fill_rgb := rgb_color; fill_transparency := None;
               line := LineNone; shadow_inherit := true;
               text_frame := None |}) in
  add_shape slide
    (TextBox Emu.in_1_5 Emu.in_3_15 Emu.in_8_3 Emu.in_2_8
       (_add_text (body_text content) 24 false
          {| red := 42; green := 42; blue := 42 |})).

(** [_draw_presentation_ui], part A: the horizontal line. *)
Definition metro_line (rgb_color : RGBColor) : Shape :=
  Auto {| auto_shape_type := RECTANGLE;
          shape_left := 0; shape_top := Emu.in_1_2;
          shape_width := width; shape_height := Emu.in_0_18;
          fill_rgb := rgb_color; fill_transparency := None;
          line := LineNone; shadow_inherit := false; text_frame := None |}.

(** Part B: the badge, whose text is [str(index).zfill(2)]. *)
Definition station_badge (index : nat) (rgb_color : RGBColor) : Shape :=
  Auto {| auto_shape_type := OVAL;
          shape_left := Emu.in_0_5; shape_top := Emu.in_0_75;
          shape_width := Emu.in_0_9; shape_height := Emu.in_0_9;
          fill_rgb := white; fill_transparency := None;
          line := LineSolid rgb_color (Pt 6);
          shadow_inherit := false;
          text_frame :=
            Some {| tf_paragraph :=
                      {| p_text := Py.zfill 2 (Py.str (Z.of_nat index));
                         p_font_name := None;
                         p_font_size := Pt 28;
                         p_font_bold := true;
                         p_font_color := rgb_color;
                         p_alignment := Some CENTER |};
                    tf_word_wrap := None;
                    tf_margin_top := Some Emu.in_0_18;
                    tf_vertical_anchor := Some 1 |} |}.

(** Part C: one dot of the progress row, for [i] in [range(1, total + 1)]. *)
Definition dot_size : Z := Emu.in_0_15.
Definition dot_gap : Z := Emu.in_0_12.

Definition start_x (total_slides : nat) : Z :=
  width - Emu.in_0_5 - (Z.of_nat total_slides * (dot_size + dot_gap)).
Definition start_y : Z := Emu.in_0_35.

Definition progress_dot (index : nat) (rgb_color : RGBColor)
    (total_slides : nat) (i : nat) : Shape :=
  let dot_x := start_x total_slides + (Z.of_nat i - 1) * (dot_size + dot_gap) in
  if Nat.eqb i index then
    Auto {| auto_shape_type := OVAL;
            shape_left := dot_x; shape_top := start_y;
            shape_width := dot_size; shape_height := dot_size;
            fill_rgb := white; fill_transparency := None;
            line := LineSolid rgb_color Emu.pt_2_5;
            shadow_inherit := false; text_frame := None |}
  else
    Auto {| auto_shape_type := OVAL;
            shape_left := dot_x; shape_top := start_y;
            shape_width := dot_size; shape_height := dot_size;
            fill_rgb := {| red := 200; green := 200; blue := 200 |};
            fill_transparency := Some 50;
            line := LineNone;
            shadow_inherit := false; text_frame := None |}.

Definition _draw_presentation_ui (slide : Slide) (index : nat)
    (rgb_color : RGBColor) (total_slides : nat) : Slide :=
  let slide := add_shape slide (metro_line rgb_color) in
  let slide := add_shape slide (station_badge index rgb_color) in
  foldl (fun slide i =>
           add_shape slide (progress_dot index rgb_color total_slides i))
        slide (seq 1 total_slides).

(** [style.logic_color_map.get(content.framework_section, "#333333")]. *)
Definition hex_color (style : StyleProfile) (content : SlideContent) : string :=
  default "#333333" (logic_color_map style !! framework_section content).

Section ExportDocument.

(** What lies outside the exporter: the base64 decoder, the image check
    made when a picture is inserted, and the write to the destination. *)
Variable b64decode : string -> Result string.
Variable check_image : string -> Result unit.
Variable save : Presentation -> string -> Result unit.

(** The string [_set_background] hands to the decoder: when the payload
    has a comma, the second field of [b64_str.split(",")]. *)
Definition background_payload (b64_str : string) : Result string :=
  if Py.contains "," b64_str then
    match Py.split "," b64_str !! 1%nat with
    | Some field => Ok field
    | None => Raised IndexError
    end
  else Ok b64_str.

(** [_set_background]: the body of the [try], then the [except Exception]
    which leaves the slide as it was. *)
Definition set_background_body (slide : Slide) (b64_str : string)
  : Result Slide :=
  b64 <-! background_payload b64_str;
  img_data <-! b64decode b64;
  _ <-! check_image img_data;
  Ok (add_shape slide (Picture img_data 0 0 width height)).

Definition _set_background (slide : Slide) (b64_str : string) : Slide :=
  try_except (set_background_body slide b64_str) slide.

(** The body of the loop of [export] for the slide at 0-based [idx]. *)
Definition export_slide (style : StyleProfile) (total : nat) (idx : nat)
    (content : SlideContent) : Result Slide :=
  let slide : Slide := [] in
  let slide :=
    match background_image_base64 content with
    | Some b64_str =>
        if Py.truthy (Some b64_str) then _set_background slide b64_str
        else slide
    | None => slide
    end in
  rgb_color <-! _hex_to_rgb (hex_color style content);
  let slide := _draw_presentation_ui slide (idx + 1) rgb_color total in
  let slide := _draw_text_content slide content rgb_color in
  Ok slide.

(** [for idx, content in enumerate(slides)], from position [idx] on. *)
Fixpoint export_loop (style : StyleProfile) (total : nat) (idx : nat)
    (rest : list SlideContent) (done : list Slide) : Result (list Slide) :=
  match rest with
  | [] => Ok done
  | content :: rest' =>
      slide <-! export_slide style total idx content;
      export_loop style total (S idx) rest' (done ++ [slide])%list
  end.

(** The presentation as it stands when [prs.save] is called. *)
Definition build (slide_contents : list SlideContent) (style : StyleProfile)
  : Result Presentation :=
  pages <-! export_loop style (length slide_contents) 0 slide_contents [];
  Ok {| slide_width := width; slide_height := height; slides := pages |}.

(** [export]: the result is the document written to [output_path]. *)
Definition export (slide_contents : list SlideContent) (output_path : string)
    (style : StyleProfile) : Result Presentation :=
  prs <-! build slide_contents style;
  _ <-! save prs output_path;
  Ok prs.

End ExportDocument.

End PptxExporter.

(** ** [src/renderer.py] *)

(** *** The template engine *)

Module Jinja.

(** The [loop] variable a [for] block binds for its body. *)
Record LoopContext : Type := {
  index : nat;
  index0 : nat;
  loop_length : nat
}.

(** [{% for item in seq %} body {% endfor %}]: the body is instantiated
    once per item, with [loop] bound to the context of this very block.
    Inside a nested [for], [loop] therefore names the inner block's context;
    the enclosing one is reachable only through a variable set beforehand. *)
Definition for_ {A B} (items : list A) (body : LoopContext -> A -> B) : list B :=
  imap (fun i item =>
          body {| index := S i; index0 := i; loop_length := length items |} item)
       items.

End Jinja.

(** *** The document the template produces

    The markup is kept as a tree: one card per slide, each with the
    attribute values and texts the template interpolates.  Literal text of
    the template between the interpolations (indentation, comments, tag
    names) is fixed and not represented. *)

Record ProgressDot : Type := {
  dot_class : string;
  dot_style : string
}.

Record SlideCard : Type := {
  card_style : string;
  line_style : string;
  badge_style : string;
  badge_text : string;
  progress_dots : list ProgressDot;
  h1_style : string;
  h1_text : string;
  body_paragraph : string
}.

Record HtmlDocument : Type := {
  head_css : string;
  container : list SlideCard
}.

Module PresentationRenderer.

(** [style.logic_color_map.get(slide.framework_section, '#333')]. *)
Definition color (style : StyleProfile) (slide : SlideContent) : string :=
  default "#333" (logic_color_map style !! framework_section slide).

(** The [url(...)] argument of the card's background. *)
Definition background_url (slide : SlideContent) : string :=
  match background_image_base64 slide with
  | Some b64 =>
      if Py.truthy (Some b64) then "data:image/png;base64," +:+ b64 else ""
  | None => ""
  end.

(** The template of [_load_html_template], instantiated as [render] does. *)
Definition render (presentation_css : string)
    (slide_contents : list SlideContent) (style : StyleProfile)
  : HtmlDocument :=
  {| head_css := presentation_css;
     container :=
       Jinja.for_ slide_contents (fun loop slide =>
         let color := color style slide in
         {| card_style :=
              "background-image: url('" +:+ background_url slide +:+ "');";
            line_style := "background-color: " +:+ color +:+ ";";
            badge_style :=
              "border-color: " +:+ color +:+ "; color: " +:+ color;
            badge_text := Py.format_02d (Z.of_nat (Jinja.index loop));
            progress_dots :=
              Jinja.for_ (seq 1 (length slide_contents)) (fun loop i =>
                {| dot_class :=
                     "progress-dot" +:+
                     (if Nat.eqb i (Jinja.index loop) then " active" else "");
                   dot_style :=
                     if Nat.eqb i (Jinja.index loop)
                     then "border: 2px solid " +:+ color +:+ ";"
                     else "" |});
            h1_style := "border-left-color: " +:+ color +:+ ";";
            h1_text := title slide;
            body_paragraph := body_text slide |}) |}.

End PresentationRenderer.

(** *** How a browser reads a hexadecimal colour

    [#rgb] abbreviates [#rrggbb]; anything else is no hexadecimal colour. *)
Module Css.

Definition hex_pair (a b : ascii) : option Z :=
  match Py.hex_value a, Py.hex_value b with
  | Some x, Some y => Some (16 * x + y)
  | _, _ => None
  end.

Definition hex_color_rgb (s : string) : option RGBColor :=
  match s with
  | String "#" (String r (String g (String b EmptyString))) =>
      match hex_pair r r, hex_pair g g, hex_pair b b with
      | Some x, Some y, Some z => Some {| red := x; green := y; blue := z |}
      | _, _, _ => None
      end
  | String "#" (String r1 (String r2 (String g1 (String g2
      (String b1 (String b2 EmptyString)))))) =>
      match hex_pair r1 r2, hex_pair g1 g2, hex_pair b1 b2 with
      | Some x, Some y, Some z => Some {| red := x; green := y; blue := z |}
      | _, _, _ => None
      end
  | _ => None
  end.

End Css.

(** ** Reading the theme-dependent decisions off the two outputs *)

Definition RGBColor_eqb (c d : RGBColor) : bool :=
  (red c =? red d) && (green c =? green d) && (blue c =? blue d).

(** 1-based positions of the elements of [l] that satisfy [p]. *)
(** How a progress dot looks: active with a given border, inactive, or
    neither. *)
Inductive DotLook (Border : Type) : Type :=
| ActiveDot (border : Border)
| InactiveDot
| OtherLook.
Arguments ActiveDot {Border} border.
Arguments InactiveDot {Border}.
Arguments OtherLook {Border}.

Definition is_active {Border} (look : DotLook Border) : bool :=
  match look with ActiveDot _ => true | _ => false end.

Fixpoint positions_from {A} (p : A -> bool) (i : nat) (l : list A) : list nat :=
  match l with
  | [] => []
  | x :: rest =>
      if p x then i :: positions_from p (S i) rest
      else positions_from p (S i) rest
  end.

Definition positions {A} (p : A -> bool) (l : list A) : list nat :=
  positions_from p 1 l.

Module Pptx.

(** The progress dots of a page: the ovals of dot size on the dot row. *)
Definition is_progress_dot (s : Shape) : bool :=
  match s with
  | Auto a =>
      match auto_shape_type a with
      | OVAL =>
          (shape_width a =? PptxExporter.dot_size)
          && (shape_top a =? PptxExporter.start_y)
      | _ => false
      end
  | _ => false
  end.

Definition dots (page : Slide) : list Shape := List.filter is_progress_dot page.

(** Active: white fill, fully opaque, outlined in the colour returned.
    Inactive: gray fill at 50 percent, no outline. *)
Definition dot_look (s : Shape) : DotLook RGBColor :=
  match s with
  | Auto a =>
      match fill_transparency a, line a with
      | None, LineSolid c _ =>
          if RGBColor_eqb (fill_rgb a) white then ActiveDot c else OtherLook
      | Some 50, LineNone =>
          if RGBColor_eqb (fill_rgb a) {| red := 200; green := 200; blue := 200 |}
          then InactiveDot else OtherLook
      | _, _ => OtherLook
      end
  | _ => OtherLook
  end.

Definition active_dots (page : Slide) : list nat :=
  positions (fun s => is_active (dot_look s)) (dots page).

(** Texts of the shapes that carry a text frame of their own: the badge. *)
Definition badge_texts (page : Slide) : list string :=
  omap (fun s => match s with
                 | Auto a => (fun tf => p_text (tf_paragraph tf)) <$> text_frame a
                 | _ => None
                 end) page.

(** Texts of the text boxes: title, then body. *)
Definition box_texts (page : Slide) : list string :=
  omap (fun s => match s with
                 | TextBox _ _ _ _ tf => Some (p_text (tf_paragraph tf))
                 | _ => None
                 end) page.

Definition pictures (page : Slide) : list Shape :=
  List.filter (fun s => match s with Picture _ _ _ _ _ => true | _ => false end)
    page.

(** The accent colour of a page: the fill of its horizontal line, the
    first rectangle drawn. *)
Definition accent (page : Slide) : option RGBColor :=
  head (omap (fun s => match s with
                       | Auto a =>
                           match auto_shape_type a with
                           | RECTANGLE => Some (fill_rgb a)
                           | _ => None
                           end
                       | _ => None
                       end) page).

End Pptx.

Module Html.

(** Active: class [progress-dot active], with the inline style returned.
    Inactive: class [progress-dot] and no inline style. *)
Definition dot_look (d : ProgressDot) : DotLook string :=
  if String.eqb (dot_class d) "progress-dot active" then ActiveDot (dot_style d)
  else if String.eqb (dot_class d) "progress-dot" && String.eqb (dot_style d) ""
  then InactiveDot
  else OtherLook.

Definition active_dots (card : SlideCard) : list nat :=
  positions (fun d => is_active (dot_look d)) (progress_dots card).

End Html.

(** ** Vocabulary of the statements *)

(** Six characters in a row. *)
Definition six_chars (d0 d1 d2 d3 d4 d5 : ascii) : string :=
  String d0 (String d1 (String d2 (String d3 (String d4 (String d5 EmptyString))))).

(** A colour string of the data model: [#] followed by six hexadecimal
    digits. *)
Definition is_hex_color (s : string) : bool :=
  match s with
  | String "#" (String d0 (String d1 (String d2 (String d3 (String d4
      (String d5 EmptyString)))))) =>
      forallb Py.is_hex_digit [d0; d1; d2; d3; d4; d5]
  | _ => false
  end.

(** A profile all of whose colours are such strings. *)
Definition well_formed (style : StyleProfile) : Prop :=
  forall tag v, logic_color_map style !! tag = Some v -> is_hex_color v = true.

(** The profiles of the catalog. *)
Definition catalog : list StyleProfile :=
  [METRO_STYLE; MODERN_CAFE_STYLE; MINIMAL_CONCRETE_STYLE; WARM_WOOD_STYLE;
   TECH_GRADIENT_STYLE; FLAT_INFOGRAPHIC_STYLE].

(** The same slide with no image payload. *)
Definition without_background (content : SlideContent) : SlideContent :=
  {| slide_id := slide_id content;
     framework_section := framework_section content;
     title := title content;
     body_text := body_text content;
     background_image_base64 := None;
     rationale := rationale content |}.

(** A payload that is absent, empty, or whose decoding or insertion raises. *)
Definition background_unusable (b64decode : string -> Result string)
    (check_image : string -> Result unit) (content : SlideContent) : Prop :=
  match background_image_base64 content with
  | None => True
  | Some b64_str =>
      Py.truthy (Some b64_str) = true ->
      is_ok (PptxExporter.set_background_body b64decode check_image [] b64_str)
      = false
  end.

(** The background layer of a page: empty, or one picture. *)
Definition background_layer (b64decode : string -> Result string)
    (check_image : string -> Result unit) (content : SlideContent) : Slide :=
  match background_image_base64 content with
  | Some b64_str =>
      if Py.truthy (Some b64_str)
      then PptxExporter._set_background b64decode check_image [] b64_str
      else []
  | None => []
  end.

(** What the exporter draws over the background for the slide at 1-based
    position [index] of [total], once its colour is known. *)
Definition chrome (index total : nat) (rgb_color : RGBColor)
    (content : SlideContent) : Slide :=
  PptxExporter._draw_text_content
    (PptxExporter._draw_presentation_ui [] index rgb_color total)
    content rgb_color.

(** The specification's reading of the prefix: the part of a payload up
    to and including its first comma; [after_first_comma] is what remains
    once it is removed (the whole payload when there is no comma). *)
Fixpoint after_first_comma_aux (s : string) : option string :=
  match s with
  | EmptyString => None
  | String a rest =>
      if Ascii.eqb a "," then Some rest else after_first_comma_aux rest
  end.

Definition after_first_comma (s : string) : string :=
  default s (after_first_comma_aux s).

Fixpoint count_char (c : ascii) (s : string) : nat :=
  match s with
  | EmptyString => O
  | String a rest =>
      if Ascii.eqb a c then S (count_char c rest) else count_char c rest
  end.

(** The same slide under another section tag. *)
Definition with_section (tag : string) (content : SlideContent) : SlideContent :=
  {| slide_id := slide_id content;
     framework_section := tag;
     title := title content;
     body_text := body_text content;
     background_image_base64 := background_image_base64 content;
     rationale := rationale content |}.

(** The built-in fallback gray. *)
Definition gray_51 : RGBColor := {| red := 51; green := 51; blue := 51 |}.

(** A slide with a tag, a title, a body and no image. *)
Definition plain_slide (tag title_text body : string) : SlideContent :=
  {| slide_id := "slide";
     framework_section := tag;
     title := title_text;
     body_text := body;
     background_image_base64 := None;
     rationale := None |}.

(** * The surrounding code: image provider and deck assembly *)

(** ** [base64.b64encode] *)

Module Base64.

Definition alphabet : string :=
  "ABCDEFGHIJKLMNOPQRSTUVWXYZabcdefghijklmnopqrstuvwxyz0123456789+/".

(** The character of a six-bit value. *)
Definition b2a (sextet : N) : ascii :=
  default "="%char (String.get (N.to_nat sextet) alphabet).

Definition byte (c : ascii) : N := N_of_ascii c.

(** [base64.b64encode(data)] on a byte string: three bytes give four
    characters; a last group of one or two bytes is padded with [=]. *)
Fixpoint b64encode (data : string) : string :=
  match data with
  | EmptyString => EmptyString
  | String a EmptyString =>
      String (b2a (N.shiftr (byte a) 2))
        (String (b2a (N.shiftl (N.land (byte a) 3) 4)) "==")
  | String a (String b EmptyString) =>
      String (b2a (N.shiftr (byte a) 2))
        (String (b2a (N.lor (N.shiftl (N.land (byte a) 3) 4)
                            (N.shiftr (byte b) 4)))
           (String (b2a (N.shiftl (N.land (byte b) 15) 2)) "="))
  | String a (String b (String c rest)) =>
      String (b2a (N.shiftr (byte a) 2))
        (String (b2a (N.lor (N.shiftl (N.land (byte a) 3) 4)
                            (N.shiftr (byte b) 4)))
           (String (b2a (N.lor (N.shiftl (N.land (byte b) 15) 2)
                               (N.shiftr (byte c) 6)))
              (String (b2a (N.land (byte c) 63)) (b64encode rest))))
  end.

End Base64.

(** ** [src/providers.py] *)

(** A call of the provider that may raise: an exception is kept as its
    message [str(e)], which is all the provider reads of it. *)
Inductive Outcome (A : Type) : Type :=
| Done (a : A)
| Failed (message : string).
Arguments Done {A} a.
Arguments Failed {A} message.

(** Modelled from the spec: [src/models.py] is not among the sources; the
    fields of the request and of the result are those the provider and its
    caller pass and read. *)
Record ImageGenRequest : Type := {
  prompt : string;
  aspect_ratio : string
}.

Record ImageGenResult : Type := {
  success : bool;
  image_base64 : option string;
  text_content : option string;
  error : option string
}.

(** One part of a response: [part.text] and [part.as_image()]. *)
Record Part (Image : Type) : Type := {
  part_text : option string;
  part_image : option Image
}.
Arguments part_text {Image} p.
Arguments part_image {Image} p.

Module Gemini3Provider.

Section Provider.

Variable Image : Type.

(** Outside the provider: the SDK call, whose response is read through
    [response.parts] ([None] when the response has no parts), and the
    writing of an image to a temporary file and reading of its bytes. *)
Variable _call_sdk : ImageGenRequest -> Outcome (option (list (Part Image))).
Variable image_bytes : Image -> Outcome string.

(** The loop of [_parse_response] over the parts, with the two variables
    it assigns. *)
Fixpoint parse_parts (parts : list (Part Image))
    (text_content image_b64 : option string)
  : Outcome (option string * option string) :=
  match parts with
  | [] => Done (text_content, image_b64)
  | part :: rest =>
      match part_text part with
      | Some text => parse_parts rest (Some text) image_b64
      | None =>
          match part_image part with
          | Some image =>
              match image_bytes image with
              | Done img_bytes =>
                  parse_parts rest text_content
                    (Some (Base64.b64encode img_bytes))
              | Failed message => Failed message
              end
          | None => parse_parts rest text_content image_b64
          end
      end
  end.

(** [_parse_response]. *)
Definition _parse_response (response_parts : option (list (Part Image)))
  : ImageGenResult :=
  let body :=
    match response_parts with
    | Some parts => parse_parts parts None None
    | None => Failed "'NoneType' object is not iterable"
    end in
  match body with
  | Done (text_content, image_b64) =>
      if Py.truthy image_b64
      then {| success := true; image_base64 := image_b64;
              text_content := text_content; error := None |}
      else {| success := false; image_base64 := None;
              text_content := text_content;
              error := Some "未生成圖片" |}
  | Failed message =>
      {| success := false; image_base64 := None; text_content := None;
         error := Some ("解析失敗: " +:+ message) |}
  end.

(** [generate]: the awaited call runs to its end before the response is
    parsed. *)
Definition generate (request : ImageGenRequest) : ImageGenResult :=
  match _call_sdk request with
  | Done response => _parse_response response
  | Failed message =>
      {| success := false; image_base64 := None; text_content := None;
         error := Some message |}
  end.

End Provider.

End Gemini3Provider.

(** ** Deck assembly of [nano_banana_app.py] *)

(** One entry of [st.session_state.slides]: a dictionary; a field is [None]
    when the key is missing. *)
Record SlideData : Type := {
  sd_title : option string;
  sd_content : option string;
  sd_style : option StyleKey;
  sd_image : option string;
  sd_generated : option bool
}.

Module App.

Definition newline : string := String (ascii_of_nat 10) EmptyString.

(** [not slide_data.get("generated") or not slide_data.get("image")]. *)
Definition skipped (slide_data : SlideData) : bool :=
  negb (default false (sd_generated slide_data))
  || negb (Py.truthy (sd_image slide_data)).

(** The loop that fills [slide_contents], the same in
    [create_pptx_from_slides] and [create_html_preview], from position
    [idx] on. *)
Fixpoint slide_contents_from (idx : nat) (slides : list SlideData)
  : list SlideContent :=
  match slides with
  | [] => []
  | slide_data :: rest =>
      if skipped slide_data then slide_contents_from (S idx) rest
      else
        {| slide_id := "slide_" +:+ Py.str (Z.of_nat (idx + 1));
           framework_section :=
             match sd_style slide_data with
             | Some style => key_string style
             | None => "default"
             end;
           title :=
             default ("投影片 " +:+ Py.str (Z.of_nat (idx + 1)))
               (sd_title slide_data);
           body_text := default "" (sd_content slide_data);
           background_image_base64 := sd_image slide_data;
           rationale := None |}
        :: slide_contents_from (S idx) rest
  end.

Definition slide_contents (slides : list SlideData) : list SlideContent :=
  slide_contents_from 0 slides.

(** [StyleType(x)]: the member with this value; [None] stands for
    [ValueError]. *)
Definition StyleType_of (x : StyleKey) : option StyleType :=
  match x with
  | KeyEnum t => Some t
  | KeyStr s => List.find (fun t => String.eqb (value t) s) StyleType_members
  end.

(** The style of the deck: that of the first entry when it converts, the
    Taipei Metro member otherwise. *)
Definition deck_style_type (slides : list SlideData) : StyleType :=
  match slides with
  | first :: _ =>
      match sd_style first with
      | Some style =>
          if Py.truthy (Some (key_string style))
          then default TAIPEI_METRO (StyleType_of style)
          else TAIPEI_METRO
      | None => TAIPEI_METRO
      end
  | [] => TAIPEI_METRO
  end.

Definition deck_style (slides : list SlideData) : StyleProfile :=
  StyleRegistry.get (KeyEnum (deck_style_type slides)).


(** [create_html_preview]. *)
Definition create_html_preview (presentation_css : string)
    (slides : list SlideData) : HtmlDocument :=
  PresentationRenderer.render presentation_css (slide_contents slides)
    (deck_style slides).

(** [generate_slide_image], with the cost computation left outside. *)
Record SlideImage (Cost : Type) : Type := {
  si_success : bool;
  si_image_base64 : option string;
  si_text_content : option string;
  si_error : option string;
  si_cost_info : Cost
}.
Arguments si_success {Cost} s.
Arguments si_image_base64 {Cost} s.
Arguments si_text_content {Cost} s.
Arguments si_error {Cost} s.
Arguments si_cost_info {Cost} s.

Definition full_prompt (prompt : string) (style : StyleKey) : string :=
  prompt +:+ newline +:+ newline
    +:+ base_prompt_modifier (StyleRegistry.get style).

Definition generate_slide_image {Image Cost : Type}
    (_call_sdk : ImageGenRequest -> Outcome (option (list (Part Image))))
    (image_bytes : Image -> Outcome string)
    (calculate_cost : nat -> string -> string -> Cost)
    (prompt : string) (style : StyleKey) : SlideImage Cost :=
  let request :=
    {| prompt := full_prompt prompt style; aspect_ratio := "16:9" |} in
  let result := Gemini3Provider.generate Image _call_sdk image_bytes request in
  {| si_success := success result;
     si_image_base64 := image_base64 result;
     si_text_content := text_content result;
     si_error := error result;
     si_cost_info :=
       calculate_cost 1%nat (full_prompt prompt style)
         (default "" (text_content result)) |}.

End App.

(** ** Vocabulary of the further statements *)

(** Horizontal extent of a shape. *)
Definition shape_extent (s : Shape) : Z * Z :=
  match s with
  | Picture _ l _ w _ => (l, l + w)
  | Auto a => (shape_left a, shape_left a + shape_width a)
  | TextBox l _ w _ _ => (l, l + w)
  end.

(** A slide entry as the slide editor leaves it after a generation. *)
Definition generated_slide (title_text content : string) (style : StyleKey)
    (image : string) : SlideData :=
  {| sd_title := Some title_text; sd_content := Some content;
     sd_style := Some style; sd_image := Some image;
     sd_generated := Some true |}.

(** [n] number signs in a row. *)
Fixpoint hashes (n : nat) : string :=
  match n with
  | O => EmptyString
  | S n' => String "#" (hashes n')
  end.

(** The texts of a response, and the images of its parts without text,
    in order. *)
Definition part_texts {Image} (parts : list (Part Image)) : list string :=
  omap part_text parts.

Definition part_images {Image} (parts : list (Part Image)) : list Image :=
  omap (fun part => match part_text part with
                    | Some _ => None
                    | None => part_image part
                    end) parts.

(** The entries of the session that the assembly keeps. *)
Definition kept_slides (slides : list SlideData) : list SlideData :=
  List.filter (fun slide_data => negb (App.skipped slide_data)) slides.

(** The tag the assembly gives an entry. *)
Definition tag_of (slide_data : SlideData) : string :=
  match sd_style slide_data with
  | Some style => key_string style
  | None => "default"
  end.

(** An entry whose style is one of the six themes of the style selector,
    as a member or as its value. *)
Definition themed (slide_data : SlideData) : Prop :=
  exists style t,
    sd_style slide_data = Some style
    /\ key_string style = value t /\ t <> DEFAULT.

(** The number a text denotes when it is a non-empty row of decimal
    digits, leading zeros allowed. *)
Definition decimal_value (s : string) : option nat :=
  Nat.of_uint <$> NilZero.uint_of_string s.

(** * Properties *)

(** ** Evaluation on small inputs *)

Example lstrip_hash : Py.lstrip "#" "##E3002C" = "E3002C".
Proof. reflexivity. Qed.

Example slice_short : Py.slice "333" 2 4 = "3" /\ Py.slice "333" 4 6 = "".
Proof. split; reflexivity. Qed.

Example split_two : Py.split "," "a,b,c" = ["a"; "b"; "c"].
Proof. reflexivity. Qed.

Example int16_examples :
  Py.int16 "E3" = Some 227 /\ Py.int16 "2c" = Some 44 /\
  Py.int16 "" = None /\ Py.int16 "3" = Some 3 /\ Py.int16 "-F" = Some (-15) /\
  Py.int16 "0x" = None /\ Py.int16 "G0" = None /\ Py.int16 "1_" = None /\
  Py.int16 " 7" = Some 7.
Proof. repeat split; reflexivity. Qed.

Example zfill_examples :
  Py.zfill 2 (Py.str 1) = "01" /\ Py.zfill 2 (Py.str 10) = "10" /\
  Py.zfill 2 (Py.str 123) = "123" /\ Py.zfill 3 "-5" = "-05" /\
  Py.format_02d 7 = "07" /\ Py.format_02d 42 = "42" /\
  Py.format_02d (-5) = "-5".
Proof. repeat split; reflexivity. Qed.

Example get_by_member_and_string :
  StyleRegistry.get (KeyEnum MODERN_CAFE) = MODERN_CAFE_STYLE /\
  StyleRegistry.get (KeyStr "modern_cafe") = MODERN_CAFE_STYLE /\
  StyleRegistry.get (KeyStr "no_such_style") = METRO_STYLE.
Proof. repeat split; vm_compute; reflexivity. Qed.

Example remap_examples :
  remap_style (KeyStr "creative") = KeyEnum MODERN_CAFE /\
  remap_style (KeyStr "warm_wood") = KeyStr "warm_wood" /\
  remap_style (KeyStr "vintage") = KeyEnum TAIPEI_METRO.
Proof. repeat split; vm_compute; reflexivity. Qed.

Example hex_to_rgb_metro_red :
  PptxExporter._hex_to_rgb "#E3002C" = Ok {| red := 227; green := 0; blue := 44 |}.
Proof. reflexivity. Qed.

(** Nested [for] blocks: in the inner body, [loop.index] counts the inner
    items. *)
Example for_nested_loop_index :
  Jinja.for_ ["a"; "b"]
    (fun loop _ => Jinja.for_ [10; 20; 30]%nat (fun loop _ => Jinja.index loop))
  = [[1; 2; 3]; [1; 2; 3]]%nat.
Proof. reflexivity. Qed.

Example hex_to_rgb_short_raises :
  PptxExporter._hex_to_rgb "#333" = Raised ValueError.
Proof. reflexivity. Qed.

(** ** Hexadecimal colours *)

Lemma assoc_char_In c l v : Py.assoc_char c l = Some v -> In (c, v) l.
Proof.
  induction l as [|[a w] l IH]; simpl; [discriminate|].
  destruct (Ascii.eqb_spec a c) as [->|_].
  - intros [= ->]. now left.
  - intros H. right. now apply IH.
Qed.

(** A table-driven check: [check] holds of every entry of [hex_digits]. *)
Lemma hex_value_table (check : ascii -> Z -> bool) c v :
  forallb (fun '(a, w) => check a w) Py.hex_digits = true ->
  Py.hex_value c = Some v -> check c v = true.
Proof.
  intros Hall Hc. apply assoc_char_In in Hc.
  rewrite forallb_forall in Hall. exact (Hall (c, v) Hc).
Qed.

Lemma hex_value_range c v : Py.hex_value c = Some v -> 0 <= v <= 15.
Proof.
  intros H.
  pose proof (hex_value_table (fun _ w => (0 <=? w) && (w <=? 15)) c v eq_refl H) as E.
  apply andb_prop in E as [E1 E2]. lia.
Qed.

Lemma hex_digit_not_hash c v :
  Py.hex_value c = Some v -> Ascii.eqb c "#" = false.
Proof.
  intros H.
  pose proof (hex_value_table (fun a _ => negb (Ascii.eqb a "#")) c v eq_refl H) as E.
  now apply negb_true_iff in E.
Qed.

(** [int] on two hexadecimal digits. *)
Lemma int16_pair a b x y :
  Py.hex_value a = Some x -> Py.hex_value b = Some y ->
  Py.int16 (String a (String b EmptyString)) = Some (16 * x + y).
Proof.
  intros Ha Hb.
  pose proof (hex_value_table
    (fun a x => forallb (fun '(b, y) =>
       match Py.int16 (String a (String b EmptyString)) with
       | Some v => v =? 16 * x + y
       | None => false
       end) Py.hex_digits) a x eq_refl Ha) as E.
  rewrite forallb_forall in E.
  specialize (E (b, y) (assoc_char_In _ _ _ Hb)). simpl in E.
  destruct (Py.int16 (String a (String b EmptyString))); [|discriminate].
  apply Z.eqb_eq in E. now subst.
Qed.

Lemma new_RGBColor_in_range r g b :
  0 <= r <= 255 -> 0 <= g <= 255 -> 0 <= b <= 255 ->
  new_RGBColor r g b = Ok {| red := r; green := g; blue := b |}.
Proof.
  intros Hr Hg Hb. unfold new_RGBColor. simpl.
  repeat match goal with
         | |- context [?x <=? ?y] =>
             let E := fresh in
             assert (E : (x <=? y) = true) by (apply Z.leb_le; lia);
             rewrite E; clear E
         end.
  reflexivity.
Qed.

Lemma hex_to_rgb_unprefixed d0 d1 d2 d3 d4 d5 v0 v1 v2 v3 v4 v5 :
  Py.hex_value d0 = Some v0 -> Py.hex_value d1 = Some v1 ->
  Py.hex_value d2 = Some v2 -> Py.hex_value d3 = Some v3 ->
  Py.hex_value d4 = Some v4 -> Py.hex_value d5 = Some v5 ->
  PptxExporter._hex_to_rgb (six_chars d0 d1 d2 d3 d4 d5)
  = Ok {| red := 16 * v0 + v1; green := 16 * v2 + v3; blue := 16 * v4 + v5 |}.
Proof.
  intros H0 H1 H2 H3 H4 H5.
  unfold PptxExporter._hex_to_rgb, six_chars.
  cbn [Py.lstrip]. rewrite (hex_digit_not_hash _ _ H0).
  change (Py.slice ?s 0 2) with (Py.take_chars 2 s).
  cbn [Py.slice Py.take_chars Py.drop_chars Nat.sub].
  unfold PptxExporter.int16_or_raise.
  rewrite (int16_pair _ _ _ _ H0 H1), (int16_pair _ _ _ _ H2 H3),
    (int16_pair _ _ _ _ H4 H5).
  cbn [rbind].
  apply new_RGBColor_in_range;
    repeat match goal with
           | H : Py.hex_value _ = Some _ |- _ => apply hex_value_range in H
           end; lia.
Qed.

Lemma hex_to_rgb_prefixed d0 d1 d2 d3 d4 d5 :
  PptxExporter._hex_to_rgb (String "#" (six_chars d0 d1 d2 d3 d4 d5))
  = PptxExporter._hex_to_rgb (six_chars d0 d1 d2 d3 d4 d5).
Proof. reflexivity. Qed.

(** ** The shape tree of a page *)

Lemma foldl_add_shape {A} (f : A -> Shape) (l : list A) (slide : Slide) :
  foldl (fun slide i => add_shape slide (f i)) slide l = (slide ++ map f l)%list.
Proof.
  revert slide. induction l as [|x l IH]; intros slide; simpl.
  - now rewrite app_nil_r.
  - rewrite IH. unfold add_shape. now rewrite <- app_assoc.
Qed.

Lemma draw_presentation_ui_shapes slide index c total :
  PptxExporter._draw_presentation_ui slide index c total
  = (slide ++ PptxExporter.metro_line c :: PptxExporter.station_badge index c
       :: map (PptxExporter.progress_dot index c total) (seq 1 total))%list.
Proof.
  unfold PptxExporter._draw_presentation_ui. rewrite foldl_add_shape.
  unfold add_shape. now rewrite <- !app_assoc.
Qed.

Lemma draw_text_content_app slide content c :
  PptxExporter._draw_text_content slide content c
  = (slide ++ PptxExporter._draw_text_content [] content c)%list.
Proof.
  unfold PptxExporter._draw_text_content, add_shape. simpl.
  now rewrite <- !app_assoc.
Qed.

Lemma chrome_shapes index total c content :
  chrome index total c content
  = (PptxExporter.metro_line c :: PptxExporter.station_badge index c
       :: map (PptxExporter.progress_dot index c total) (seq 1 total)
       ++ PptxExporter._draw_text_content [] content c)%list.
Proof.
  unfold chrome. rewrite draw_text_content_app, draw_presentation_ui_shapes.
  reflexivity.
Qed.

(** A page is its background layer under its chrome. *)
Lemma export_slide_layers b64decode check_image style total idx content :
  PptxExporter.export_slide b64decode check_image style total idx content
  = (c <-! PptxExporter._hex_to_rgb (PptxExporter.hex_color style content);
     Ok (background_layer b64decode check_image content
           ++ chrome (idx + 1) total c content)%list).
Proof.
  unfold PptxExporter.export_slide, background_layer, chrome.
  destruct (PptxExporter._hex_to_rgb _) as [c|e]; [|reflexivity]. cbn [rbind].
  rewrite draw_text_content_app, draw_presentation_ui_shapes.
  rewrite (draw_text_content_app (PptxExporter._draw_presentation_ui _ _ _ _)).
  rewrite (draw_presentation_ui_shapes []). cbn [app].
  now rewrite <- !app_assoc.
Qed.

(** ** Colour strings of the data model *)

Lemma is_hex_color_inv s :
  is_hex_color s = true ->
  exists d0 d1 d2 d3 d4 d5 v0 v1 v2 v3 v4 v5,
    s = String "#" (six_chars d0 d1 d2 d3 d4 d5) /\
    Py.hex_value d0 = Some v0 /\ Py.hex_value d1 = Some v1 /\
    Py.hex_value d2 = Some v2 /\ Py.hex_value d3 = Some v3 /\
    Py.hex_value d4 = Some v4 /\ Py.hex_value d5 = Some v5.
Proof.
  intros H.
  destruct s as [|a s]; [discriminate|].
  destruct (Ascii.eqb_spec a "#") as [->|Hne].
  2:{ exfalso. destruct a as [[] [] [] [] [] [] [] []];
      try discriminate H. now apply Hne. }
  destruct s as [|d0 [|d1 [|d2 [|d3 [|d4 [|d5 [|? ?]]]]]]]; try discriminate H.
  cbn in H. unfold Py.is_hex_digit in H.
  destruct (Py.hex_value d0) as [v0|] eqn:E0; [|discriminate].
  destruct (Py.hex_value d1) as [v1|] eqn:E1; [|discriminate].
  destruct (Py.hex_value d2) as [v2|] eqn:E2; [|discriminate].
  destruct (Py.hex_value d3) as [v3|] eqn:E3; [|discriminate].
  destruct (Py.hex_value d4) as [v4|] eqn:E4; [|discriminate].
  destruct (Py.hex_value d5) as [v5|] eqn:E5; [|discriminate].
  exists d0, d1, d2, d3, d4, d5, v0, v1, v2, v3, v4, v5.
  repeat split; assumption.
Qed.

(** On a colour string the exporter's conversion succeeds, and yields the
    colour a browser reads from the same string. *)
Lemma hex_to_rgb_hex_color s :
  is_hex_color s = true ->
  exists c, PptxExporter._hex_to_rgb s = Ok c /\ Css.hex_color_rgb s = Some c.
Proof.
  intros H. apply is_hex_color_inv in H
    as (d0 & d1 & d2 & d3 & d4 & d5 & v0 & v1 & v2 & v3 & v4 & v5
        & -> & H0 & H1 & H2 & H3 & H4 & H5).
  eexists. split.
  - rewrite hex_to_rgb_prefixed.
    exact (hex_to_rgb_unprefixed _ _ _ _ _ _ _ _ _ _ _ _ H0 H1 H2 H3 H4 H5).
  - unfold six_chars. cbn [Css.hex_color_rgb]. unfold Css.hex_pair.
    now rewrite H0, H1, H2, H3, H4, H5.
Qed.

Lemma hex_color_is_hex_color style content :
  well_formed style ->
  is_hex_color (PptxExporter.hex_color style content) = true.
Proof.
  intros Hwf. unfold PptxExporter.hex_color.
  destruct (logic_color_map style !! framework_section content) as [v|] eqn:E.
  - exact (Hwf _ _ E).
  - reflexivity.
Qed.

Lemma catalog_well_formed style : In style catalog -> well_formed style.
Proof.
  intros Hin tag v Hv.
  assert (Hall : forallb (fun st =>
            forallb (fun kv => is_hex_color kv.2)
                    (map_to_list (logic_color_map st))) catalog = true)
    by (vm_compute; reflexivity).
  rewrite forallb_forall in Hall. specialize (Hall _ Hin).
  rewrite forallb_forall in Hall.
  apply (Hall (tag, v)). apply list_elem_of_In. now apply elem_of_map_to_list.
Qed.

(** ** Reading a page *)

Lemma positions_from_map_seq {A} (p : A -> bool) (f : nat -> A) n i :
  positions_from p i (map f (seq i n)) = List.filter (fun j => p (f j)) (seq i n).
Proof.
  revert i. induction n as [|n IH]; intros i; simpl; [reflexivity|].
  rewrite IH. reflexivity.
Qed.


Lemma filter_all {A} (p : A -> bool) l :
  (forall x, p x = true) -> List.filter p l = l.
Proof.
  intros H. induction l as [|x l IH]; simpl; [reflexivity|].
  now rewrite H, IH.
Qed.

Lemma filter_all_map {A B} (p : B -> bool) (f : A -> B) l :
  (forall x, p (f x) = true) -> List.filter p (map f l) = map f l.
Proof.
  intros H. induction l as [|x l IH]; simpl; [reflexivity|].
  now rewrite H, IH.
Qed.

Lemma omap_none_map {A B C} (g : B -> option C) (f : A -> B) l :
  (forall x, g (f x) = None) -> omap g (map f l) = [].
Proof.
  intros H. induction l as [|x l IH]; [reflexivity|]. cbn. now rewrite H.
Qed.

Lemma filter_none_map {A B} (p : B -> bool) (f : A -> B) l :
  (forall x, p (f x) = false) -> List.filter p (map f l) = [].
Proof.
  intros H. induction l as [|x l IH]; [reflexivity|]. cbn. now rewrite H.
Qed.

Lemma progress_dot_is_dot index c total i :
  Pptx.is_progress_dot (PptxExporter.progress_dot index c total i) = true.
Proof. unfold PptxExporter.progress_dot. destruct (Nat.eqb i index); reflexivity. Qed.


Lemma chrome_readings index total c content :
  Pptx.dots (chrome index total c content)
  = map (PptxExporter.progress_dot index c total) (seq 1 total)
  /\ Pptx.badge_texts (chrome index total c content)
     = [Py.zfill 2 (Py.str (Z.of_nat index))]
  /\ Pptx.box_texts (chrome index total c content)
     = [title content; body_text content]
  /\ Pptx.accent (chrome index total c content) = Some c
  /\ Pptx.pictures (chrome index total c content) = [].
Proof.
  rewrite chrome_shapes.
  unfold Pptx.dots, Pptx.badge_texts, Pptx.box_texts, Pptx.accent, Pptx.pictures.
  change (PptxExporter.metro_line c :: PptxExporter.station_badge index c
            :: ?ds ++ ?tc)%list
    with ([PptxExporter.metro_line c; PptxExporter.station_badge index c]
            ++ ds ++ tc)%list.
  rewrite !List.filter_app, !omap_app.
  rewrite (filter_all_map Pptx.is_progress_dot)
    by (intros; apply progress_dot_is_dot).
  rewrite (filter_none_map (fun s => match s with
             | Picture _ _ _ _ _ => true | _ => false end))
    by (intros i; unfold PptxExporter.progress_dot;
        destruct (Nat.eqb i index); reflexivity).
  rewrite !omap_none_map
    by (intros i; unfold PptxExporter.progress_dot;
        destruct (Nat.eqb i index); reflexivity).
  change (List.filter Pptx.is_progress_dot
            (PptxExporter._draw_text_content [] content c)) with (@nil Shape).
  rewrite app_nil_r.
  repeat split; reflexivity.
Qed.

Section PageFacts.

Variable b64decode : string -> Result string.
Variable check_image : string -> Result unit.

Lemma background_layer_cases content :
  background_layer b64decode check_image content = [] \/
  exists blob,
    background_layer b64decode check_image content
    = [Picture blob 0 0 PptxExporter.width PptxExporter.height].
Proof.
  unfold background_layer.
  destruct (background_image_base64 content) as [b|]; [|now left].
  destruct (Py.truthy (Some b)); [|now left].
  unfold PptxExporter._set_background, PptxExporter.set_background_body.
  destruct (PptxExporter.background_payload b) as [p|]; [|now left].
  cbn [rbind]. destruct (b64decode p) as [d|]; [|now left].
  cbn [rbind]. destruct (check_image d); [|now left].
  right. now exists d.
Qed.

(** The decisions a page carries, whatever its background layer is. *)
Lemma page_readings content index total c :
  let page :=
    (background_layer b64decode check_image content
       ++ chrome index total c content)%list in
  Pptx.dots page = map (PptxExporter.progress_dot index c total) (seq 1 total)
  /\ Pptx.badge_texts page = [Py.zfill 2 (Py.str (Z.of_nat index))]
  /\ Pptx.box_texts page = [title content; body_text content]
  /\ Pptx.accent page = Some c
  /\ Pptx.pictures page = background_layer b64decode check_image content.
Proof.
  intros page. subst page.
  destruct (chrome_readings index total c content) as (Hd & Hb & Hx & Ha & Hp).
  unfold Pptx.dots, Pptx.badge_texts, Pptx.box_texts, Pptx.accent, Pptx.pictures
    in *.
  destruct (background_layer_cases content) as [->|[blob ->]];
    cbn [app List.filter omap list_omap];
    rewrite ?Hd, ?Hb, ?Hx, ?Ha, ?Hp; repeat split; reflexivity.
Qed.

End PageFacts.

(** ** The loop of [export] *)

Section LoopFacts.

Variable b64decode : string -> Result string.
Variable check_image : string -> Result unit.
Local Abbreviation export_slide := (PptxExporter.export_slide b64decode check_image).
Local Abbreviation export_loop := (PptxExporter.export_loop b64decode check_image).
Local Abbreviation layer := (background_layer b64decode check_image).

(** With a well-formed profile the loop runs to its end, and page [k] is
    the background layer of slide [k] under its chrome. *)
Lemma export_loop_pages style total rest :
  well_formed style ->
  forall idx done,
  exists pages,
    export_loop style total idx rest done = Ok (done ++ pages)%list
    /\ length pages = length rest
    /\ forall k content, rest !! k = Some content ->
         exists c,
           PptxExporter._hex_to_rgb (PptxExporter.hex_color style content) = Ok c
           /\ pages !! k
              = Some (layer content ++ chrome (idx + k + 1) total c content)%list.
Proof.
  intros Hwf. induction rest as [|content rest IH]; intros idx done.
  - exists []. rewrite app_nil_r. repeat split. intros k ? Hk. discriminate Hk.
  - cbn [PptxExporter.export_loop]. rewrite export_slide_layers.
    destruct (hex_to_rgb_hex_color _ (hex_color_is_hex_color style content Hwf))
      as (c & Hc & _).
    rewrite Hc. cbn [rbind].
    destruct (IH (S idx) (done ++ [layer content ++ chrome (idx + 1) total c content])%list)
      as (pages & Hrun & Hlen & Hpages).
    exists ((layer content ++ chrome (idx + 1) total c content)%list :: pages).
    split; [|split].
    + rewrite <- app_assoc in Hrun. exact Hrun.
    + simpl. now rewrite Hlen.
    + intros [|k] content' Hk.
      * injection Hk as <-. exists c. split; [exact Hc|].
        now replace (idx + 0 + 1)%nat with (idx + 1)%nat by lia.
      * destruct (Hpages k content' Hk) as (c' & Hc' & Hk').
        exists c'. split; [exact Hc'|].
        now replace (idx + S k + 1)%nat with (S idx + k + 1)%nat by lia.
Qed.

(** Replacing a slide by one that exports alike leaves the loop's result. *)
Lemma export_loop_slide_ext style total s s' post :
  (forall idx, export_slide style total idx s = export_slide style total idx s') ->
  forall pre idx done,
    export_loop style total idx (pre ++ s :: post) done
    = export_loop style total idx (pre ++ s' :: post) done.
Proof.
  intros Hs. induction pre as [|x pre IH]; intros idx done.
  - cbn [app PptxExporter.export_loop]. now rewrite Hs.
  - cbn [app PptxExporter.export_loop].
    destruct (export_slide style total idx x); [|reflexivity].
    cbn [rbind]. apply IH.
Qed.

Lemma background_layer_unusable content :
  background_unusable b64decode check_image content -> layer content = [].
Proof.
  unfold background_unusable, background_layer.
  destruct (background_image_base64 content) as [b|]; [|reflexivity].
  destruct (Py.truthy (Some b)); [|reflexivity].
  intros H. specialize (H eq_refl).
  unfold PptxExporter._set_background.
  destruct (PptxExporter.set_background_body _ _ _ _); [discriminate H|reflexivity].
Qed.

Lemma export_slide_unusable style total idx content :
  background_unusable b64decode check_image content ->
  export_slide style total idx content
  = export_slide style total idx (without_background content).
Proof.
  intros H. rewrite !export_slide_layers.
  rewrite (background_layer_unusable _ H). reflexivity.
Qed.

End LoopFacts.

(** ** The template's loops *)

Lemma positions_from_all {A} (p : A -> bool) l i :
  Forall (fun x => p x = true) l -> positions_from p i l = seq i (length l).
Proof.
  intros H. revert i. induction H as [|x l Hx _ IH]; intros i; simpl.
  - reflexivity.
  - now rewrite Hx, IH.
Qed.

(** In the inner loop, [loop.index] is the position of [i] in
    [range(1, n + 1)], that is, [i] itself. *)
Lemma for_range_index {B} (body : Jinja.LoopContext -> nat -> B) n :
  Jinja.for_ (seq 1 n) body
  = map (fun i => body {| Jinja.index := i; Jinja.index0 := i - 1;
                          Jinja.loop_length := n |} i) (seq 1 n).
Proof.
  unfold Jinja.for_. rewrite length_seq.
  rewrite <- (imap_const (fun i => body _ i)). apply imap_ext.
  intros i x Hx. apply lookup_seq in Hx as [-> _]. cbn.
  now replace (i - 0)%nat with i by lia.
Qed.

Lemma render_card_dots css slide_contents style k card :
  container (PresentationRenderer.render css slide_contents style) !! k = Some card ->
  exists content,
    slide_contents !! k = Some content
    /\ map Html.dot_look (progress_dots card)
       = map (fun _ => ActiveDot ("border: 2px solid "
                                    +:+ PresentationRenderer.color style content
                                    +:+ ";"))
           (seq 1 (length slide_contents))
    /\ length (progress_dots card) = length slide_contents
    /\ Html.active_dots card = seq 1 (length slide_contents).
Proof.
  cbn [PresentationRenderer.render container]. unfold Jinja.for_ at 1.
  rewrite list_lookup_imap.
  destruct (slide_contents !! k) as [slide|]; [|discriminate].
  cbn [fmap option_fmap option_map]. intros [= <-]. exists slide.
  split; [reflexivity|]. unfold Html.active_dots, positions.
  cbn [progress_dots]. rewrite for_range_index. cbn [Jinja.index].
  rewrite List.map_map, positions_from_map_seq, length_map, length_seq.
  split; [|split; [reflexivity|]].
  - apply List.map_ext. intros i. unfold Html.dot_look. cbn [dot_class dot_style].
    now rewrite Nat.eqb_refl.
  - apply filter_all. intros i.
    unfold Html.dot_look. cbn [dot_class dot_style]. now rewrite Nat.eqb_refl.
Qed.

Section BuildFacts.

Variable b64decode : string -> Result string.
Variable check_image : string -> Result unit.
Variable save : Presentation -> string -> Result unit.

(** With a well-formed profile the document is built, has one page per
    slide, and is what [export] hands to [save]. *)
Lemma build_pages slide_contents style :
  well_formed style ->
  exists prs,
    PptxExporter.build b64decode check_image slide_contents style = Ok prs
    /\ (forall output_path,
          PptxExporter.export b64decode check_image save slide_contents
            output_path style
          = (_ <-! save prs output_path; Ok prs))
    /\ length (slides prs) = length slide_contents
    /\ forall k content, slide_contents !! k = Some content ->
         exists c,
           PptxExporter._hex_to_rgb (PptxExporter.hex_color style content) = Ok c
           /\ slides prs !! k
              = Some (background_layer b64decode check_image content
                        ++ chrome (k + 1) (length slide_contents) c content)%list.
Proof.
  intros Hwf.
  destruct (export_loop_pages b64decode check_image style
              (length slide_contents) slide_contents Hwf 0%nat [])
    as (pages & Hrun & Hlen & Hpages).
  exists {| slide_width := PptxExporter.width;
            slide_height := PptxExporter.height; slides := pages |}.
  unfold PptxExporter.export, PptxExporter.build. rewrite Hrun. cbn [rbind app slides].
  repeat split; [exact Hlen|]. exact Hpages.
Qed.

End BuildFacts.

(** ** Badge numbers *)

Lemma str_nat_head n :
  exists a rest,
    Py.str_nat n = String a rest
    /\ Ascii.eqb a "+" = false /\ Ascii.eqb a "-" = false.
Proof.
  unfold Py.str_nat, NilZero.string_of_uint.
  destruct (Nat.to_uint n); cbn; eexists _, _; repeat split.
Qed.

(** On a position, the template's ["%02d"] and the exporter's
    [str(index).zfill(2)] write the same text. *)
Lemma format_02d_zfill (n : nat) :
  Py.format_02d (Z.of_nat n) = Py.zfill 2 (Py.str (Z.of_nat n)).
Proof.
  unfold Py.format_02d, Py.str, Py.zfill.
  destruct (Z.ltb_spec (Z.of_nat n) 0) as [Hneg|_]; [lia|].
  rewrite Zabs2Nat.id.
  destruct (str_nat_head n) as (a & rest & -> & Hp & Hm).
  rewrite Hp, Hm. cbn [orb String.length].
  destruct rest as [|b rest]; [reflexivity|].
  cbn [String.length Nat.leb Nat.sub]. reflexivity.
Qed.

(** ** The style registry *)

Lemma registry_lookup_Some key p :
  StyleRegistry._styles !! key = Some p ->
  exists t, In t StyleType_members /\ key = value t /\ In p catalog
            /\ StyleRegistry.get (KeyEnum t) = p.
Proof.
  intros H. apply elem_of_list_to_map_2, list_elem_of_In in H. simpl in H.
  destruct H as [H|[H|[H|[H|[H|[H|[]]]]]]]; injection H as <- <-.
  - exists TAIPEI_METRO. split; [cbn; tauto|].
    split; [reflexivity|]. split; [now left|]. vm_compute; reflexivity.
  - exists MODERN_CAFE. split; [cbn; tauto|].
    split; [reflexivity|]. split; [right; now left|]. vm_compute; reflexivity.
  - exists MINIMAL_CONCRETE. split; [cbn; tauto|].
    split; [reflexivity|]. split; [do 2 right; now left|]. vm_compute; reflexivity.
  - exists WARM_WOOD. split; [cbn; tauto|].
    split; [reflexivity|]. split; [do 3 right; now left|]. vm_compute; reflexivity.
  - exists TECH_GRADIENT. split; [cbn; tauto|].
    split; [reflexivity|]. split; [do 4 right; now left|]. vm_compute; reflexivity.
  - exists FLAT_INFOGRAPHIC. split; [cbn; tauto|].
    split; [reflexivity|]. split; [do 5 right; now left|]. vm_compute; reflexivity.
Qed.

Lemma registry_get_unknown k :
  StyleRegistry._styles !! key_string k = None -> StyleRegistry.get k = METRO_STYLE.
Proof. unfold StyleRegistry.get. now intros ->. Qed.

Lemma registry_get_in_catalog k : In (StyleRegistry.get k) catalog.
Proof.
  unfold StyleRegistry.get.
  destruct (StyleRegistry._styles !! key_string k) as [p|] eqn:E; cbn.
  - now destruct (registry_lookup_Some _ _ E) as (t & _ & _ & Hp & _).
  - now left.
Qed.

Lemma old_style_map_entries legacy t :
  old_style_map !! legacy = Some t ->
  In (legacy, t)
     [("professional", TAIPEI_METRO); ("creative", MODERN_CAFE);
      ("minimal", MINIMAL_CONCRETE); ("tech", TECH_GRADIENT);
      ("warm", WARM_WOOD)].
Proof. intros H. now apply elem_of_list_to_map_2, list_elem_of_In in H. Qed.

(** C5: for every key, a string or an enumeration member, recognised or
    not, [StyleRegistry.get] returns a profile of the catalog (the lookup has
    no failing path), and for every key that is not registered it returns
    the Taipei Metro profile. *)
Theorem registry_get_never_fails (k : StyleKey) :
  In (StyleRegistry.get k) catalog
  /\ (StyleRegistry._styles !! key_string k = None ->
      StyleRegistry.get k = METRO_STYLE).
Proof. split; [apply registry_get_in_catalog | apply registry_get_unknown]. Qed.

Lemma registry_get_never_fails_witness :
  StyleRegistry._styles !! key_string (KeyStr "vintage") = None
  /\ In (StyleRegistry.get (KeyStr "vintage")) catalog
  /\ StyleRegistry.get (KeyStr "vintage") = METRO_STYLE.
Proof.
  assert (H : StyleRegistry._styles !! key_string (KeyStr "vintage") = None)
    by (vm_compute; reflexivity).
  split; [exact H|].
  destruct (registry_get_never_fails (KeyStr "vintage")) as [Hin Hdef].
  split; [exact Hin | exact (Hdef H)].
Defined.

(** C10: [StyleType.DEFAULT] is a member of the enumeration, the registry
    has no entry for it, and [StyleRegistry.get(StyleType.DEFAULT)] is the
    Taipei Metro profile, the same profile every unregistered key gets. *)
Theorem default_member_not_registered :
  In DEFAULT StyleType_members
  /\ value DEFAULT = "default"
  /\ StyleRegistry._styles !! value DEFAULT = None
  /\ StyleRegistry.get (KeyEnum DEFAULT) = METRO_STYLE
  /\ (forall k, StyleRegistry._styles !! key_string k = None ->
                StyleRegistry.get k = StyleRegistry.get (KeyEnum DEFAULT)).
Proof.
  assert (H : StyleRegistry._styles !! value DEFAULT = None)
    by (vm_compute; reflexivity).
  split; [simpl; tauto|]. split; [reflexivity|]. split; [exact H|].
  split; [exact (registry_get_unknown (KeyEnum DEFAULT) H)|].
  intros k Hk. rewrite (registry_get_unknown k Hk).
  symmetry. exact (registry_get_unknown (KeyEnum DEFAULT) H).
Qed.

Lemma default_member_not_registered_witness :
  StyleRegistry._styles !! key_string (KeyStr "retro") = None
  /\ StyleRegistry.get (KeyStr "retro") = StyleRegistry.get (KeyEnum DEFAULT).
Proof.
  assert (H : StyleRegistry._styles !! key_string (KeyStr "retro") = None)
    by (vm_compute; reflexivity).
  split; [exact H|].
  destruct default_member_not_registered as (_ & _ & _ & _ & Hall).
  exact (Hall (KeyStr "retro") H).
Defined.

(** C4, as stated, fails: [StyleRegistry.get] applies no remap, so the
    legacy key ["creative"], whose current equivalent is [MODERN_CAFE], gets
    the fallback profile and not the Modern Cafe profile. *)
Lemma legacy_key_not_remapped_by_get :
  old_style_map !! "creative" = Some MODERN_CAFE
  /\ StyleRegistry.get (KeyStr "creative") = METRO_STYLE
  /\ StyleRegistry.get (KeyEnum MODERN_CAFE) = MODERN_CAFE_STYLE
  /\ StyleRegistry.get (KeyStr "creative")
     <> StyleRegistry.get (KeyEnum MODERN_CAFE).
Proof.
  assert (H1 : StyleRegistry.get (KeyStr "creative") = METRO_STYLE)
    by (vm_compute; reflexivity).
  assert (H2 : StyleRegistry.get (KeyEnum MODERN_CAFE) = MODERN_CAFE_STYLE)
    by (vm_compute; reflexivity).
  split; [vm_compute; reflexivity|]. split; [exact H1|]. split; [exact H2|].
  rewrite H1, H2. intros E. apply (f_equal name) in E. discriminate E.
Qed.

(** C4, amended: for every legacy key of [old_style_map], the slide
    editor's remap followed by [StyleRegistry.get] returns the profile that
    [StyleRegistry.get] returns for the key's current equivalent;
    [StyleRegistry.get] alone returns the Taipei Metro profile for it. *)
Theorem legacy_key_remap_then_get legacy t :
  old_style_map !! legacy = Some t ->
  remap_style (KeyStr legacy) = KeyEnum t
  /\ StyleRegistry.get (remap_style (KeyStr legacy)) = StyleRegistry.get (KeyEnum t)
  /\ StyleRegistry.get (KeyStr legacy) = METRO_STYLE.
Proof.
  intros H. apply old_style_map_entries in H. simpl in H.
  destruct H as [H|[H|[H|[H|[H|[]]]]]]; injection H as <- <-;
    repeat split; vm_compute; reflexivity.
Qed.

Lemma legacy_key_remap_then_get_witness :
  old_style_map !! "warm" = Some WARM_WOOD
  /\ StyleRegistry.get (remap_style (KeyStr "warm")) = WARM_WOOD_STYLE.
Proof.
  assert (H : old_style_map !! "warm" = Some WARM_WOOD) by (vm_compute; reflexivity).
  split; [exact H|].
  destruct (legacy_key_remap_then_get "warm" WARM_WOOD H) as (_ & -> & _).
  vm_compute; reflexivity.
Defined.

(** ** Hexadecimal conversion *)

(** C8: for six hexadecimal digits, with or without a leading [#],
    [_hex_to_rgb] returns the three channels [int(h[0:2], 16)],
    [int(h[2:4], 16)], [int(h[4:6], 16)] in this order, each the value of
    its two digits and within 0..255; ["#E3002C"] gives (227, 0, 44). *)
Theorem hex_to_rgb_exact d0 d1 d2 d3 d4 d5 :
  forallb Py.is_hex_digit [d0; d1; d2; d3; d4; d5] = true ->
  let h := six_chars d0 d1 d2 d3 d4 d5 in
  exists r g b,
    Py.int16 (Py.slice h 0 2) = Some r
    /\ Py.int16 (Py.slice h 2 4) = Some g
    /\ Py.int16 (Py.slice h 4 6) = Some b
    /\ Py.hex_value d0 ≫= (fun x => Py.hex_value d1 ≫= (fun y => Some (16 * x + y))) = Some r
    /\ Py.hex_value d2 ≫= (fun x => Py.hex_value d3 ≫= (fun y => Some (16 * x + y))) = Some g
    /\ Py.hex_value d4 ≫= (fun x => Py.hex_value d5 ≫= (fun y => Some (16 * x + y))) = Some b
    /\ PptxExporter._hex_to_rgb h = Ok {| red := r; green := g; blue := b |}
    /\ PptxExporter._hex_to_rgb (String "#" h) = Ok {| red := r; green := g; blue := b |}
    /\ 0 <= r <= 255 /\ 0 <= g <= 255 /\ 0 <= b <= 255
    /\ PptxExporter._hex_to_rgb "#E3002C" = Ok {| red := 227; green := 0; blue := 44 |}.
Proof.
  intros H h. cbn in H. unfold Py.is_hex_digit in H.
  destruct (Py.hex_value d0) as [v0|] eqn:E0; [|discriminate].
  destruct (Py.hex_value d1) as [v1|] eqn:E1; [|discriminate].
  destruct (Py.hex_value d2) as [v2|] eqn:E2; [|discriminate].
  destruct (Py.hex_value d3) as [v3|] eqn:E3; [|discriminate].
  destruct (Py.hex_value d4) as [v4|] eqn:E4; [|discriminate].
  destruct (Py.hex_value d5) as [v5|] eqn:E5; [|discriminate].
  exists (16 * v0 + v1), (16 * v2 + v3), (16 * v4 + v5).
  pose proof (hex_value_range _ _ E0). pose proof (hex_value_range _ _ E1).
  pose proof (hex_value_range _ _ E2). pose proof (hex_value_range _ _ E3).
  pose proof (hex_value_range _ _ E4). pose proof (hex_value_range _ _ E5).
  subst h. unfold six_chars.
  cbn [Py.slice Py.take_chars Py.drop_chars Nat.sub].
  split; [now apply int16_pair|]. split; [now apply int16_pair|].
  split; [now apply int16_pair|].
  split; [reflexivity|]. split; [reflexivity|]. split; [reflexivity|].
  split; [exact (hex_to_rgb_unprefixed _ _ _ _ _ _ _ _ _ _ _ _ E0 E1 E2 E3 E4 E5)|].
  split; [exact (hex_to_rgb_unprefixed _ _ _ _ _ _ _ _ _ _ _ _ E0 E1 E2 E3 E4 E5)|].
  repeat split; try lia.
Qed.

Lemma hex_to_rgb_exact_witness :
  exists r g b,
    PptxExporter._hex_to_rgb "0070bd" = Ok {| red := r; green := g; blue := b |}
    /\ PptxExporter._hex_to_rgb "#0070bd" = Ok {| red := r; green := g; blue := b |}
    /\ Py.int16 "bd" = Some b.
Proof.
  destruct (hex_to_rgb_exact "0" "0" "7" "0" "b" "d" eq_refl)
    as (r & g & b & _ & _ & Hb & _ & _ & _ & H1 & H2 & _).
  exists r, g, b. split; [exact H1|]. split; [exact H2|exact Hb].
Defined.

(** ** Accent colours *)

Lemma hex_color_unknown style content :
  logic_color_map style !! framework_section content = None ->
  PptxExporter.hex_color style content = "#333333"
  /\ PresentationRenderer.color style content = "#333".
Proof.
  intros H. unfold PptxExporter.hex_color, PresentationRenderer.color.
  now rewrite H.
Qed.

(** The two outputs carry the same accent colour and the same badge text
    for the slide at every position, under a well-formed profile. *)
Lemma accent_colors_agree style content :
  well_formed style ->
  exists c,
    PptxExporter._hex_to_rgb (PptxExporter.hex_color style content) = Ok c
    /\ Css.hex_color_rgb (PresentationRenderer.color style content) = Some c.
Proof.
  intros Hwf. unfold PptxExporter.hex_color, PresentationRenderer.color.
  destruct (logic_color_map style !! framework_section content) as [v|] eqn:E.
  - cbn [default]. apply hex_to_rgb_hex_color. exact (Hwf _ _ E).
  - exists gray_51. split; reflexivity.
Qed.

(** C3, as stated, fails: under the Modern Cafe profile a slide tagged
    ["taipei_metro"], which is no key of the colour map, gets the built-in
    gray in both outputs, while a slide tagged ["default"] gets the profile's
    own default colour. *)
Lemma unknown_tag_not_profile_default :
  let unknown := plain_slide "taipei_metro" "Title" "Body" in
  let explicit := with_section "default" unknown in
  logic_color_map MODERN_CAFE_STYLE !! framework_section unknown = None
  /\ PptxExporter._hex_to_rgb (PptxExporter.hex_color MODERN_CAFE_STYLE unknown)
     = Ok gray_51
  /\ PptxExporter._hex_to_rgb (PptxExporter.hex_color MODERN_CAFE_STYLE explicit)
     = Ok {| red := 93; green := 78; blue := 55 |}
  /\ PresentationRenderer.color MODERN_CAFE_STYLE unknown = "#333"
  /\ PresentationRenderer.color MODERN_CAFE_STYLE explicit = "#5D4E37"
  /\ PptxExporter._hex_to_rgb (PptxExporter.hex_color MODERN_CAFE_STYLE unknown)
     <> PptxExporter._hex_to_rgb (PptxExporter.hex_color MODERN_CAFE_STYLE explicit)
  /\ PresentationRenderer.color MODERN_CAFE_STYLE unknown
     <> PresentationRenderer.color MODERN_CAFE_STYLE explicit.
Proof.
  repeat split; try (vm_compute; reflexivity); vm_compute; discriminate.
Qed.

(** C3, amended: for every profile and every slide whose section tag is no
    key of the profile's colour map, both outputs resolve the accent colour
    to the built-in gray (51, 51, 51), written ["#333333"] by the exporter
    and ["#333"] by the renderer, whatever the profile; a slide tagged
    ["default"] gets the profile's ["default"] entry when there is one. *)
Theorem unknown_tag_builtin_gray style content :
  logic_color_map style !! framework_section content = None ->
  PptxExporter.hex_color style content = "#333333"
  /\ PptxExporter._hex_to_rgb (PptxExporter.hex_color style content) = Ok gray_51
  /\ PresentationRenderer.color style content = "#333"
  /\ Css.hex_color_rgb (PresentationRenderer.color style content) = Some gray_51
  /\ (forall v, logic_color_map style !! "default" = Some v ->
        PptxExporter.hex_color style (with_section "default" content) = v
        /\ PresentationRenderer.color style (with_section "default" content) = v).
Proof.
  intros H. destruct (hex_color_unknown style content H) as [-> ->].
  do 4 (split; [reflexivity|]).
  intros v Hv. unfold PptxExporter.hex_color, PresentationRenderer.color.
  cbn [framework_section with_section]. rewrite Hv. split; reflexivity.
Qed.

Lemma unknown_tag_builtin_gray_witness :
  logic_color_map WARM_WOOD_STYLE
    !! framework_section (plain_slide "warm_wood" "Title" "Body") = None
  /\ PptxExporter._hex_to_rgb
       (PptxExporter.hex_color WARM_WOOD_STYLE (plain_slide "warm_wood" "Title" "Body"))
     = Ok gray_51
  /\ PresentationRenderer.color WARM_WOOD_STYLE (plain_slide "warm_wood" "Title" "Body")
     = "#333".
Proof.
  assert (H : logic_color_map WARM_WOOD_STYLE
                !! framework_section (plain_slide "warm_wood" "Title" "Body") = None)
    by (vm_compute; reflexivity).
  split; [exact H|].
  destruct (unknown_tag_builtin_gray WARM_WOOD_STYLE
              (plain_slide "warm_wood" "Title" "Body") H) as (_ & H1 & H2 & _).
  split; [exact H1 | exact H2].
Defined.

(** ** Image payloads *)

Lemma append_cons c s t : String c s +:+ t = String c (s +:+ t).
Proof. reflexivity. Qed.

Lemma append_nil_r s : s +:+ "" = s.
Proof.
  induction s as [|c s IH]; [reflexivity|]. rewrite append_cons. now f_equal.
Qed.

Lemma append_snoc cur a rest :
  (cur +:+ String a EmptyString) +:+ rest = cur +:+ String a rest.
Proof.
  induction cur as [|c cur IH]; [reflexivity|]. rewrite !append_cons. now f_equal.
Qed.

Lemma split_aux_no_sep c cur s :
  count_char c s = O -> Py.split_aux c cur s = [cur +:+ s].
Proof.
  revert cur. induction s as [|a s IH]; intros cur H; cbn in *.
  - now rewrite append_nil_r.
  - destruct (Ascii.eqb a c); [discriminate|].
    rewrite IH by exact H. now rewrite append_snoc.
Qed.

Lemma contains_after_first_comma s :
  Py.contains "," s = match after_first_comma_aux s with
                      | Some _ => true
                      | None => false
                      end.
Proof.
  induction s as [|a s IH]; cbn; [reflexivity|].
  destruct (Ascii.eqb a ","); [reflexivity|exact IH].
Qed.

Lemma split_second_field s rest :
  after_first_comma_aux s = Some rest ->
  forall cur, Py.split_aux "," cur s !! 1%nat = head (Py.split_aux "," EmptyString rest).
Proof.
  revert rest. induction s as [|a s IH]; intros rest; cbn; [discriminate|].
  destruct (Ascii.eqb a ",").
  - intros [= ->] cur. now rewrite head_lookup.
  - intros H cur. now apply IH.
Qed.

Lemma count_after_first_comma s rest :
  after_first_comma_aux s = Some rest ->
  count_char "," s = S (count_char "," rest).
Proof.
  revert rest. induction s as [|a s IH]; intros rest; cbn; [discriminate|].
  destruct (Ascii.eqb a ",").
  - now intros [= ->].
  - apply IH.
Qed.

(** What the exporter decodes, for a payload with at most one comma. *)
Lemma background_payload_one_comma payload :
  (count_char "," payload <= 1)%nat ->
  PptxExporter.background_payload payload = Ok (after_first_comma payload).
Proof.
  intros Hc. unfold PptxExporter.background_payload, after_first_comma.
  rewrite contains_after_first_comma.
  destruct (after_first_comma_aux payload) as [rest|] eqn:E; [|reflexivity].
  unfold Py.split. rewrite (split_second_field _ _ E).
  apply count_after_first_comma in E.
  rewrite split_aux_no_sep by lia. reflexivity.
Qed.

Lemma render_card css slide_contents style k content :
  slide_contents !! k = Some content ->
  exists card,
    container (PresentationRenderer.render css slide_contents style) !! k = Some card
    /\ card_style card
       = "background-image: url('" +:+ PresentationRenderer.background_url content
           +:+ "');"
    /\ line_style card
       = "background-color: " +:+ PresentationRenderer.color style content +:+ ";"
    /\ badge_text card = Py.format_02d (Z.of_nat (k + 1))
    /\ h1_text card = title content
    /\ body_paragraph card = body_text content.
Proof.
  intros Hk. cbn [PresentationRenderer.render container]. unfold Jinja.for_ at 1.
  rewrite list_lookup_imap, Hk. cbn [fmap option_fmap option_map].
  eexists. split; [reflexivity|]. cbn [card_style line_style badge_text h1_text
    body_paragraph Jinja.index].
  replace (S k) with (k + 1)%nat by lia. repeat split.
Qed.

Lemma truthy_nonempty payload : payload <> "" -> Py.truthy (Some payload) = true.
Proof. destruct payload; [congruence|reflexivity]. Qed.

(** C9, as stated, fails on the exporter's side: for a payload with two
    commas the exporter decodes only the field between them, not all that
    follows the first comma. *)
Lemma exporter_keeps_second_field_only :
  after_first_comma "data:image/png;base64,AAAA,BBBB" = "AAAA,BBBB"
  /\ PptxExporter.background_payload "data:image/png;base64,AAAA,BBBB" = Ok "AAAA"
  /\ PptxExporter.background_payload "data:image/png;base64,AAAA,BBBB"
     <> Ok (after_first_comma "data:image/png;base64,AAAA,BBBB").
Proof.
  split; [reflexivity|]. split; [reflexivity|]. vm_compute. discriminate.
Qed.

(** C9, amended: for every payload with at most one comma the exporter
    decodes what follows the comma (the whole payload when it has none),
    while the renderer writes ["data:image/png;base64,"] followed by the
    payload as stored; so a payload that already starts with this prefix is
    decoded without it by the exporter and appears with the prefix doubled in
    the renderer's output. *)
Theorem data_uri_prefix_asymmetry payload :
  (count_char "," payload <= 1)%nat ->
  payload <> "" ->
  (forall b64decode check_image slide,
     PptxExporter.set_background_body b64decode check_image slide payload
     = (img_data <-! b64decode (after_first_comma payload);
        _ <-! check_image img_data;
        Ok (add_shape slide
              (Picture img_data 0 0 PptxExporter.width PptxExporter.height))))
  /\ (forall css slide_contents style k content,
        slide_contents !! k = Some content ->
        background_image_base64 content = Some payload ->
        exists card,
          container (PresentationRenderer.render css slide_contents style) !! k
          = Some card
          /\ card_style card
             = "background-image: url('"
                 +:+ ("data:image/png;base64," +:+ payload) +:+ "');")
  /\ (forall rest,
        payload = "data:image/png;base64," +:+ rest ->
        after_first_comma payload = rest
        /\ "data:image/png;base64," +:+ payload
           = "data:image/png;base64,data:image/png;base64," +:+ rest).
Proof.
  intros Hc Hne. split; [|split].
  - intros b64decode check_image slide. unfold PptxExporter.set_background_body.
    now rewrite (background_payload_one_comma _ Hc).
  - intros css slide_contents style k content Hk Hbg.
    destruct (render_card css slide_contents style k content Hk)
      as (card & Hcard & Hstyle & _).
    exists card. split; [exact Hcard|]. rewrite Hstyle.
    unfold PresentationRenderer.background_url. rewrite Hbg.
    now rewrite (truthy_nonempty _ Hne).
  - intros rest ->. split; reflexivity.
Qed.

Lemma data_uri_prefix_asymmetry_witness :
  PptxExporter.set_background_body
    (fun s => if String.eqb s "QUJD" then Ok "ABC" else Raised BinasciiError)
    (fun _ => Ok tt) [] "data:image/png;base64,QUJD"
  = Ok [Picture "ABC" 0 0 PptxExporter.width PptxExporter.height]
  /\ "data:image/png;base64," +:+ "data:image/png;base64,QUJD"
     = "data:image/png;base64,data:image/png;base64,QUJD".
Proof.
  assert (Hc : (count_char "," "data:image/png;base64,QUJD" <= 1)%nat)
    by (vm_compute; lia).
  assert (Hne : "data:image/png;base64,QUJD" <> "") by discriminate.
  destruct (data_uri_prefix_asymmetry "data:image/png;base64,QUJD" Hc Hne)
    as (Hexp & _ & Hdouble).
  split.
  - rewrite Hexp. reflexivity.
  - exact (proj2 (Hdouble "QUJD" eq_refl)).
Defined.

(** ** The exported document *)

Lemma length_replace_middle {A} (pre post : list A) (s s' : A) :
  length (pre ++ s :: post) = length (pre ++ s' :: post).
Proof. rewrite !length_app. reflexivity. Qed.

(** C6: with a well-formed profile, the exporter builds a document with
    one page per slide and hands it to [save]; the page at position [k]
    (counted from 0) is made from the slide at position [k], carrying its
    title and body, and its badge reads [str(k + 1).zfill(2)]. *)
Theorem export_pages_in_order_with_badges
    (b64decode : string -> Result string)
    (check_image : string -> Result unit)
    (save : Presentation -> string -> Result unit)
    (slide_contents : list SlideContent) (output_path : string)
    (style : StyleProfile) :
  well_formed style ->
  exists prs,
    PptxExporter.build b64decode check_image slide_contents style = Ok prs
    /\ PptxExporter.export b64decode check_image save slide_contents
         output_path style
       = (_ <-! save prs output_path; Ok prs)
    /\ length (slides prs) = length slide_contents
    /\ forall k content, slide_contents !! k = Some content ->
         exists page,
           slides prs !! k = Some page
           /\ Pptx.badge_texts page = [Py.zfill 2 (Py.str (Z.of_nat (k + 1)))]
           /\ Pptx.box_texts page = [title content; body_text content].
Proof.
  intros Hwf.
  destruct (build_pages b64decode check_image save slide_contents style Hwf)
    as (prs & Hbuild & Hexport & Hlen & Hpages).
  exists prs. split; [exact Hbuild|]. split; [apply Hexport|].
  split; [exact Hlen|].
  intros k content Hk. destruct (Hpages k content Hk) as (c & _ & Hpage).
  eexists. split; [exact Hpage|].
  destruct (page_readings b64decode check_image content (k + 1)
              (length slide_contents) c) as (_ & Hb & Hx & _).
  split; [exact Hb | exact Hx].
Qed.

Lemma export_pages_in_order_with_badges_witness :
  exists prs,
    PptxExporter.export (fun _ => Raised BinasciiError) (fun _ => Ok tt)
      (fun _ _ => Ok tt)
      [plain_slide "point_opening" "One" "first";
       plain_slide "examples" "Two" "second";
       plain_slide "point_closing" "Three" "third"]
      "deck.pptx" METRO_STYLE = Ok prs
    /\ map Pptx.badge_texts (slides prs) = [["01"]; ["02"]; ["03"]]
    /\ map Pptx.box_texts (slides prs)
       = [["One"; "first"]; ["Two"; "second"]; ["Three"; "third"]].
Proof.
  destruct (export_pages_in_order_with_badges
              (fun _ => Raised BinasciiError) (fun _ => Ok tt) (fun _ _ => Ok tt)
              [plain_slide "point_opening" "One" "first";
               plain_slide "examples" "Two" "second";
               plain_slide "point_closing" "Three" "third"]
              "deck.pptx" METRO_STYLE
              (catalog_well_formed METRO_STYLE (or_introl eq_refl)))
    as (prs & Hbuild & Hexport & _).
  exists prs. split; [exact Hexport|].
  vm_compute in Hbuild. injection Hbuild as <-. split; vm_compute; reflexivity.
Defined.

(** C7: a slide whose image payload is absent, empty, or fails to decode
    or to be inserted never makes [export] raise: the export behaves exactly
    as if that slide had no payload; with a well-formed profile and a
    writable destination it succeeds, the page of that slide has no picture,
    and every other page is the one it would be with any other slide in that
    place. *)
Theorem export_background_fail_soft
    (b64decode : string -> Result string)
    (check_image : string -> Result unit)
    (save : Presentation -> string -> Result unit)
    (style : StyleProfile) (output_path : string)
    (pre post : list SlideContent) (s : SlideContent) :
  background_unusable b64decode check_image s ->
  PptxExporter.export b64decode check_image save (pre ++ s :: post)
    output_path style
  = PptxExporter.export b64decode check_image save
      (pre ++ without_background s :: post) output_path style
  /\ (well_formed style ->
      (forall prs, save prs output_path = Ok tt) ->
      exists prs page,
        PptxExporter.export b64decode check_image save (pre ++ s :: post)
          output_path style = Ok prs
        /\ length (slides prs) = length (pre ++ s :: post)
        /\ slides prs !! length pre = Some page
        /\ Pptx.pictures page = []
        /\ forall s' prs',
             PptxExporter.export b64decode check_image save
               (pre ++ s' :: post) output_path style = Ok prs' ->
             forall j, j <> length pre -> slides prs' !! j = slides prs !! j).
Proof.
  intros Hbad. split.
  - unfold PptxExporter.export, PptxExporter.build.
    rewrite (length_replace_middle pre post s (without_background s)).
    rewrite (export_loop_slide_ext b64decode check_image style _ s
               (without_background s) post
               (fun idx => export_slide_unusable b64decode check_image style _
                             idx s Hbad)).
    reflexivity.
  - intros Hwf Hsave.
    destruct (build_pages b64decode check_image save (pre ++ s :: post) style Hwf)
      as (prs & _ & Hexport & Hlen & Hpages).
    assert (Hs : (pre ++ s :: post)%list !! length pre = Some s)
      by (apply list_lookup_middle; reflexivity).
    destruct (Hpages _ _ Hs) as (c & _ & Hpage).
    exists prs. eexists. split; [|split; [exact Hlen|split; [exact Hpage|split]]].
    + rewrite Hexport, Hsave. reflexivity.
    + destruct (page_readings b64decode check_image s (length pre + 1)
                  (length (pre ++ s :: post)) c) as (_ & _ & _ & _ & Hp).
      rewrite Hp. now apply background_layer_unusable.
    + intros s' prs' Hexport' j Hj.
      destruct (build_pages b64decode check_image save (pre ++ s' :: post) style Hwf)
        as (prs2 & _ & Hexport2 & Hlen2 & Hpages2).
      rewrite Hexport2, Hsave in Hexport'. cbn [rbind] in Hexport'.
      injection Hexport' as <-.
      assert (Hsame : (pre ++ s' :: post)%list !! j = (pre ++ s :: post)%list !! j).
      { destruct (Nat.lt_total j (length pre)) as [Hlt|[->|Hgt]]; [|congruence|].
        - now rewrite !lookup_app_l.
        - rewrite !lookup_app_r by lia.
          destruct (j - length pre)%nat as [|n] eqn:E; [lia|reflexivity]. }
      destruct ((pre ++ s :: post)%list !! j) as [x|] eqn:Ex.
      * destruct (Hpages j x Ex) as (cx & Hcx & Hp1).
        destruct (Hpages2 j x Hsame) as (cx' & Hcx' & Hp2).
        rewrite Hcx in Hcx'. injection Hcx' as <-.
        rewrite (length_replace_middle pre post s' s) in Hp2.
        etransitivity; [exact Hp2|]. symmetry. exact Hp1.
      * transitivity (@None Slide); [|symmetry]; apply lookup_ge_None_2.
        -- rewrite Hlen2. now apply lookup_ge_None_1.
        -- rewrite Hlen. now apply lookup_ge_None_1.
Qed.

Lemma export_background_fail_soft_witness :
  exists prs,
    PptxExporter.export (fun _ => Raised BinasciiError) (fun _ => Ok tt)
      (fun _ _ => Ok tt)
      ([plain_slide "reasons" "One" "first"]
         ++ {| slide_id := "slide_2"; framework_section := "examples";
               title := "Two"; body_text := "second";
               background_image_base64 := Some "%%%not-base64%%%";
               rationale := None |}
         :: [plain_slide "point_closing" "Three" "third"])
      "deck.pptx" METRO_STYLE = Ok prs
    /\ map Pptx.pictures (slides prs) = [[]; []; []].
Proof.
  destruct (export_background_fail_soft
              (fun _ => Raised BinasciiError) (fun _ => Ok tt) (fun _ _ => Ok tt)
              METRO_STYLE "deck.pptx"
              [plain_slide "reasons" "One" "first"]
              [plain_slide "point_closing" "Three" "third"]
              {| slide_id := "slide_2"; framework_section := "examples";
                 title := "Two"; body_text := "second";
                 background_image_base64 := Some "%%%not-base64%%%";
                 rationale := None |}
              (fun _ => eq_refl)) as [_ Hok].
  destruct (Hok (catalog_well_formed METRO_STYLE (or_introl eq_refl))
                (fun _ => eq_refl)) as (prs & page & Hexport & _).
  exists prs. split; [exact Hexport|].
  vm_compute in Hexport. injection Hexport as <-. vm_compute. reflexivity.
Defined.

(** ** Progress dots and the agreement of the two outputs *)


(** The renderer's row: as many dots as slides, every one of them active,
    on every card. *)
Lemma render_every_dot_active css slide_contents style :
  Forall (fun card =>
            length (progress_dots card) = length slide_contents
            /\ Html.active_dots card = seq 1 (length slide_contents))
         (container (PresentationRenderer.render css slide_contents style)).
Proof.
  apply Forall_lookup_2. intros k card Hk.
  destruct (render_card_dots css slide_contents style k card Hk)
    as (content & _ & _ & H1 & H2).
  now split.
Qed.

(** Accent colour and badge text are the same in the two outputs. *)
Lemma outputs_agree_on_accent_and_badge
    (b64decode : string -> Result string)
    (check_image : string -> Result unit)
    (css : string) (slide_contents : list SlideContent) (style : StyleProfile) :
  well_formed style ->
  exists prs,
    PptxExporter.build b64decode check_image slide_contents style = Ok prs
    /\ forall k content, slide_contents !! k = Some content ->
         exists page card,
           slides prs !! k = Some page
           /\ container (PresentationRenderer.render css slide_contents style) !! k
              = Some card
           /\ line_style card
              = "background-color: " +:+ PresentationRenderer.color style content
                  +:+ ";"
           /\ Pptx.accent page
              = Css.hex_color_rgb (PresentationRenderer.color style content)
           /\ Pptx.badge_texts page = [badge_text card].
Proof.
  intros Hwf.
  destruct (build_pages b64decode check_image (fun _ _ => Ok tt)
              slide_contents style Hwf) as (prs & Hbuild & _ & _ & Hpages).
  exists prs. split; [exact Hbuild|].
  intros k content Hk. destruct (Hpages k content Hk) as (c & Hc & Hpage).
  destruct (render_card css slide_contents style k content Hk)
    as (card & Hcard & _ & Hline & Hbadge & _).
  eexists. exists card. split; [exact Hpage|]. split; [exact Hcard|].
  split; [exact Hline|].
  destruct (page_readings b64decode check_image content (k + 1)
              (length slide_contents) c) as (_ & Hb & _ & Ha & _).
  destruct (accent_colors_agree style content Hwf) as (c' & Hc' & Hcss).
  rewrite Hc in Hc'. injection Hc' as <-.
  split; [now rewrite Ha, Hcss|].
  now rewrite Hb, Hbadge, format_02d_zfill.
Qed.

(** C2, at a deck of two slides: the exporter's pages carry two dots
    each, with dot 1 alone active on page 1 and dot 2 alone active on page 2,
    outlined in the page's accent colour; the renderer's cards carry two dots
    each, and both dots are active on both cards. *)
Theorem progress_dots_of_two_slides
    (b64decode : string -> Result string)
    (check_image : string -> Result unit) (css : string) :
  let deck := [plain_slide "point_opening" "One" "first";
               plain_slide "examples" "Two" "second"] in
  exists prs,
    PptxExporter.build b64decode check_image deck METRO_STYLE = Ok prs
    /\ map (fun page => map Pptx.dot_look (Pptx.dots page)) (slides prs)
       = [[ActiveDot {| red := 227; green := 0; blue := 44 |}; InactiveDot];
          [InactiveDot; ActiveDot {| red := 0; green := 112; blue := 189 |}]]
    /\ map Pptx.active_dots (slides prs) = [[1]; [2]]%nat
    /\ map (fun card => map Html.dot_look (progress_dots card))
         (container (PresentationRenderer.render css deck METRO_STYLE))
       = [[ActiveDot "border: 2px solid #E3002C;";
           ActiveDot "border: 2px solid #E3002C;"];
          [ActiveDot "border: 2px solid #0070BD;";
           ActiveDot "border: 2px solid #0070BD;"]]
    /\ map Html.active_dots
         (container (PresentationRenderer.render css deck METRO_STYLE))
       = [[1; 2]; [1; 2]]%nat.
Proof.
  intros deck. eexists. split; [vm_compute; reflexivity|].
  repeat split; vm_compute; reflexivity.
Qed.

(** C1, at a deck of two slides: on the second slide the two outputs carry
    the same accent colour and the same badge text, but the exporter marks
    dot 2 alone as active while the renderer marks dots 1 and 2. *)
Theorem outputs_disagree_on_active_dot
    (b64decode : string -> Result string)
    (check_image : string -> Result unit) (css : string) :
  let deck := [plain_slide "point_opening" "One" "first";
               plain_slide "examples" "Two" "second"] in
  exists prs page card,
    PptxExporter.build b64decode check_image deck METRO_STYLE = Ok prs
    /\ slides prs !! 1%nat = Some page
    /\ container (PresentationRenderer.render css deck METRO_STYLE) !! 1%nat
       = Some card
    /\ Pptx.accent page = Some {| red := 0; green := 112; blue := 189 |}
    /\ line_style card = "background-color: #0070BD;"
    /\ Pptx.badge_texts page = ["02"]
    /\ badge_text card = "02"
    /\ Pptx.active_dots page = [2%nat]
    /\ Html.active_dots card = [1; 2]%nat
    /\ Pptx.active_dots page <> Html.active_dots card.
Proof.
  intros deck. eexists. eexists. eexists.
  split; [vm_compute; reflexivity|].
  split; [vm_compute; reflexivity|].
  split; [vm_compute; reflexivity|].
  repeat split; try (vm_compute; reflexivity). vm_compute. discriminate.
Qed.

(** The three-slide scenario under the Taipei Metro profile: red, blue and
    green accents, badges 01, 02, 03. *)
Example metro_three_slides :
  exists prs,
    PptxExporter.build (fun _ => Raised BinasciiError) (fun _ => Ok tt)
      [plain_slide "point_opening" "One" "first";
       plain_slide "examples" "Two" "second";
       plain_slide "point_closing" "Three" "third"] METRO_STYLE = Ok prs
    /\ map Pptx.accent (slides prs)
       = [Some {| red := 227; green := 0; blue := 44 |};
          Some {| red := 0; green := 112; blue := 189 |};
          Some {| red := 0; green := 134; blue := 89 |}]
    /\ map Pptx.badge_texts (slides prs) = [["01"]; ["02"]; ["03"]].
Proof. eexists. repeat split; vm_compute; reflexivity. Qed.

(** The renderer on an empty deck: a document with no card. *)
Example render_empty_deck css style :
  container (PresentationRenderer.render css [] style) = [].
Proof. reflexivity. Qed.

(** * Further properties *)

(** ** Hexadecimal conversion at its edges *)

Lemma int16_or_raise_cases s :
  PptxExporter.int16_or_raise s = Raised ValueError
  \/ exists v, PptxExporter.int16_or_raise s = Ok v.
Proof.
  unfold PptxExporter.int16_or_raise. destruct (Py.int16 s); eauto.
Qed.

Lemma new_RGBColor_cases r g b :
  new_RGBColor r g b = Raised ValueError
  \/ (new_RGBColor r g b = Ok {| red := r; green := g; blue := b |}
      /\ 0 <= r <= 255 /\ 0 <= g <= 255 /\ 0 <= b <= 255).
Proof.
  unfold new_RGBColor. cbn [forallb].
  destruct (0 <=? r) eqn:R0; [|now left]. destruct (r <=? 255) eqn:R1; [|now left].
  destruct (0 <=? g) eqn:G0; [|now left]. destruct (g <=? 255) eqn:G1; [|now left].
  destruct (0 <=? b) eqn:B0; [|now left]. destruct (b <=? 255) eqn:B1; [|now left].
  right. cbn. split; [reflexivity|].
  apply Z.leb_le in R0, R1, G0, G1, B0, B1. lia.
Qed.

(** X1: on every string, [_hex_to_rgb] either raises [ValueError] or
    returns a colour whose three channels lie within 0..255; no other
    exception and no out-of-range channel (as a signed pair like [-F] would
    give) comes out of it. *)
Theorem hex_to_rgb_value_error_or_in_range (hex_color : string) :
  PptxExporter._hex_to_rgb hex_color = Raised ValueError
  \/ exists c,
       PptxExporter._hex_to_rgb hex_color = Ok c
       /\ 0 <= red c <= 255 /\ 0 <= green c <= 255 /\ 0 <= blue c <= 255.
Proof.
  unfold PptxExporter._hex_to_rgb.
  destruct (int16_or_raise_cases (Py.slice (Py.lstrip "#" hex_color) 0 2))
    as [->|[r ->]]; [now left|].
  destruct (int16_or_raise_cases (Py.slice (Py.lstrip "#" hex_color) 2 4))
    as [->|[g ->]]; [now left|].
  destruct (int16_or_raise_cases (Py.slice (Py.lstrip "#" hex_color) 4 6))
    as [->|[b ->]]; [now left|].
  cbn [rbind]. destruct (new_RGBColor_cases r g b) as [->|[-> Hr]]; [now left|].
  right. eexists. split; [reflexivity|]. exact Hr.
Qed.

Lemma drop_chars_short n s : (String.length s <= n)%nat -> Py.drop_chars n s = "".
Proof.
  revert s. induction n as [|n IH]; intros [|a s] H; cbn in *;
    try reflexivity; try lia.
  apply IH. lia.
Qed.

(** X2: a colour string with fewer than five characters after its leading
    number signs, such as the three-digit form ["#333"] or the empty string,
    makes [_hex_to_rgb] raise [ValueError]. *)
Theorem hex_to_rgb_too_short_raises (hex_color : string) :
  (String.length (Py.lstrip "#" hex_color) <= 4)%nat ->
  PptxExporter._hex_to_rgb hex_color = Raised ValueError.
Proof.
  intros H. unfold PptxExporter._hex_to_rgb.
  destruct (int16_or_raise_cases (Py.slice (Py.lstrip "#" hex_color) 0 2))
    as [->|[r ->]]; [reflexivity|].
  destruct (int16_or_raise_cases (Py.slice (Py.lstrip "#" hex_color) 2 4))
    as [->|[g ->]]; [reflexivity|].
  unfold Py.slice at 1. rewrite (drop_chars_short 4 _ H). reflexivity.
Qed.

Lemma hex_to_rgb_too_short_raises_witness :
  PptxExporter._hex_to_rgb "#1A2B" = Raised ValueError.
Proof. apply (hex_to_rgb_too_short_raises "#1A2B"). vm_compute. lia. Defined.

Lemma lstrip_hashes n s : Py.lstrip "#" (hashes n +:+ s) = Py.lstrip "#" s.
Proof. induction n as [|n IH]; [reflexivity|]. exact IH. Qed.

(** X3: [_hex_to_rgb] reads the first six characters after the leading
    number signs and nothing else: any number of leading [#] and any text
    after the six digits (an alpha channel, for instance) leave the result
    unchanged. *)
Theorem hex_to_rgb_ignores_extra_hashes_and_suffix
    (n : nat) (d0 d1 d2 d3 d4 d5 : ascii) (suffix : string) :
  forallb Py.is_hex_digit [d0; d1; d2; d3; d4; d5] = true ->
  PptxExporter._hex_to_rgb (hashes n +:+ six_chars d0 d1 d2 d3 d4 d5 +:+ suffix)
  = PptxExporter._hex_to_rgb (six_chars d0 d1 d2 d3 d4 d5)
  /\ is_ok (PptxExporter._hex_to_rgb (six_chars d0 d1 d2 d3 d4 d5)) = true.
Proof.
  intros H. cbn in H. unfold Py.is_hex_digit in H.
  destruct (Py.hex_value d0) as [v0|] eqn:E0; [|discriminate].
  destruct (Py.hex_value d1) as [v1|] eqn:E1; [|discriminate].
  destruct (Py.hex_value d2) as [v2|] eqn:E2; [|discriminate].
  destruct (Py.hex_value d3) as [v3|] eqn:E3; [|discriminate].
  destruct (Py.hex_value d4) as [v4|] eqn:E4; [|discriminate].
  destruct (Py.hex_value d5) as [v5|] eqn:E5; [|discriminate].
  split.
  - unfold PptxExporter._hex_to_rgb at 1. rewrite lstrip_hashes.
    unfold six_chars. rewrite !append_cons. cbn [Py.lstrip].
    rewrite (hex_digit_not_hash _ _ E0).
    cbn [Py.slice Py.take_chars Py.drop_chars Nat.sub].
    unfold PptxExporter._hex_to_rgb. cbn [Py.lstrip].
    rewrite (hex_digit_not_hash _ _ E0).
    cbn [Py.slice Py.take_chars Py.drop_chars Nat.sub]. reflexivity.
  - now rewrite (hex_to_rgb_unprefixed _ _ _ _ _ _ _ _ _ _ _ _ E0 E1 E2 E3 E4 E5).
Qed.

Lemma hex_to_rgb_ignores_extra_hashes_and_suffix_witness :
  PptxExporter._hex_to_rgb "##E3002CFF"
  = Ok {| red := 227; green := 0; blue := 44 |}.
Proof.
  destruct (hex_to_rgb_ignores_extra_hashes_and_suffix
              2 "E" "3" "0" "0" "2" "C" "FF" eq_refl) as [H _].
  etransitivity; [exact H | reflexivity].
Defined.

(** ** Layers and geometry of an exported page *)

Lemma chrome_length index total c content :
  length (chrome index total c content) = (total + 7)%nat.
Proof.
  rewrite chrome_shapes. cbn [length]. rewrite length_app, length_map, length_seq.
  cbn. lia.
Qed.

(** X4: with a well-formed profile, every exported page holds at most one
    picture; when it has one, the picture is the bottom shape and covers the
    page exactly; and above the picture lie the line, the badge, one dot per
    slide of the deck and the five text shapes, [N + 7] shapes in all. *)
Theorem export_page_layers
    (b64decode : string -> Result string)
    (check_image : string -> Result unit)
    (slide_contents : list SlideContent) (style : StyleProfile) :
  well_formed style ->
  exists prs,
    PptxExporter.build b64decode check_image slide_contents style = Ok prs
    /\ forall k page, slides prs !! k = Some page ->
         length page
         = (length (Pptx.pictures page) + length slide_contents + 7)%nat
         /\ (Pptx.pictures page = []
             \/ exists blob,
                  Pptx.pictures page
                  = [Picture blob 0 0 PptxExporter.width PptxExporter.height]
                  /\ head page
                     = Some (Picture blob 0 0 PptxExporter.width
                               PptxExporter.height)).
Proof.
  intros Hwf.
  destruct (build_pages b64decode check_image (fun _ _ => Ok tt)
              slide_contents style Hwf) as (prs & Hbuild & _ & Hlen & Hpages).
  exists prs. split; [exact Hbuild|]. intros k page Hk.
  assert (Hlt : (k < length slide_contents)%nat)
    by (rewrite <- Hlen; now apply lookup_lt_Some in Hk).
  destruct (lookup_lt_is_Some_2 slide_contents k Hlt) as [content Hc].
  destruct (Hpages k content Hc) as (c & _ & Hpage).
  assert (Hp : page = (background_layer b64decode check_image content
                         ++ chrome (k + 1) (length slide_contents) c content)%list)
    by congruence.
  destruct (page_readings b64decode check_image content (k + 1)
              (length slide_contents) c) as (_ & _ & _ & _ & Hpic).
  rewrite <- Hp in Hpic. rewrite Hpic, Hp, length_app, chrome_length.
  split; [lia|].
  destruct (background_layer_cases b64decode check_image content)
    as [->|[blob ->]]; [now left|].
  right. exists blob. split; reflexivity.
Qed.

Lemma export_page_layers_witness :
  exists prs,
    PptxExporter.build
      (fun s => if String.eqb s "QUJD" then Ok "ABC" else Raised BinasciiError)
      (fun _ => Ok tt)
      [{| slide_id := "slide_1"; framework_section := "examples";
          title := "One"; body_text := "first";
          background_image_base64 := Some "QUJD"; rationale := None |};
       plain_slide "reasons" "Two" "second"] METRO_STYLE = Ok prs
    /\ map (fun page => length page) (slides prs) = [10; 9]%nat
    /\ map head (slides prs)
       = [Some (Picture "ABC" 0 0 PptxExporter.width PptxExporter.height);
          Some (PptxExporter.metro_line
                  {| red := 196; green := 140; blue := 49 |})].
Proof.
  destruct (export_page_layers
              (fun s => if String.eqb s "QUJD" then Ok "ABC"
                        else Raised BinasciiError)
              (fun _ => Ok tt)
              [{| slide_id := "slide_1"; framework_section := "examples";
                  title := "One"; body_text := "first";
                  background_image_base64 := Some "QUJD"; rationale := None |};
               plain_slide "reasons" "Two" "second"] METRO_STYLE
              (catalog_well_formed METRO_STYLE (or_introl eq_refl)))
    as (prs & Hbuild & _).
  exists prs. split; [exact Hbuild|].
  vm_compute in Hbuild. injection Hbuild as <-. split; vm_compute; reflexivity.
Defined.

(** X5: the progress row is right-aligned and evenly spaced: whatever the
    number of slides, the last dot ends one gap before the right margin of
    half an inch, each dot starts one gap after the end of the previous one,
    and no dot reaches beyond the right margin. *)
Theorem progress_row_right_aligned
    (index total i : nat) (rgb_color : RGBColor) :
  (1 <= i <= total)%nat ->
  let extent j := shape_extent (PptxExporter.progress_dot index rgb_color total j) in
  snd (extent total) = PptxExporter.width - Emu.in_0_5 - PptxExporter.dot_gap
  /\ fst (extent (S i)) = snd (extent i) + PptxExporter.dot_gap
  /\ snd (extent i) - fst (extent i) = PptxExporter.dot_size
  /\ snd (extent i) <= PptxExporter.width - Emu.in_0_5.
Proof.
  intros Hi. cbv zeta beta.
  assert (E : forall j,
             shape_extent (PptxExporter.progress_dot index rgb_color total j)
             = (PptxExporter.start_x total
                  + (Z.of_nat j - 1) * (PptxExporter.dot_size + PptxExporter.dot_gap),
                PptxExporter.start_x total
                  + (Z.of_nat j - 1) * (PptxExporter.dot_size + PptxExporter.dot_gap)
                  + PptxExporter.dot_size)).
  { intros j. unfold PptxExporter.progress_dot.
    destruct (Nat.eqb j index); reflexivity. }
  rewrite !E. cbn [fst snd].
  unfold PptxExporter.start_x, PptxExporter.dot_size, PptxExporter.dot_gap,
    PptxExporter.width, Emu.in_0_5, Emu.in_0_15, Emu.in_0_12, Emu.in_13_333.
  repeat split; lia.
Qed.

Lemma progress_row_right_aligned_witness :
  snd (shape_extent (PptxExporter.progress_dot 1 white 3 3))
  = PptxExporter.width - Emu.in_0_5 - PptxExporter.dot_gap.
Proof.
  exact (proj1 (progress_row_right_aligned 1 3 3 white
                  (conj (le_S _ _ (le_S _ _ (le_n 1))) (le_n 3)))).
Defined.

(** X6: the row starts within the page exactly for decks of at most 47
    slides: with 48 slides or more the first dot starts left of the page's
    left edge. *)
Theorem progress_row_fits_up_to_47 (index total : nat) (rgb_color : RGBColor) :
  0 <= fst (shape_extent (PptxExporter.progress_dot index rgb_color total 1))
  <-> (total <= 47)%nat.
Proof.
  assert (E : fst (shape_extent (PptxExporter.progress_dot index rgb_color total 1))
              = PptxExporter.start_x total).
  { unfold PptxExporter.progress_dot. destruct (Nat.eqb 1 index); cbn; lia. }
  rewrite E.
  unfold PptxExporter.start_x, PptxExporter.dot_size, PptxExporter.dot_gap,
    PptxExporter.width, Emu.in_0_5, Emu.in_0_15, Emu.in_0_12, Emu.in_13_333.
  lia.
Qed.

(** ** When [export] raises *)

Lemma export_slide_raises_value_error b64decode check_image style total idx content e :
  PptxExporter.export_slide b64decode check_image style total idx content
  = Raised e -> e = ValueError.
Proof.
  rewrite export_slide_layers.
  destruct (hex_to_rgb_value_error_or_in_range
              (PptxExporter.hex_color style content)) as [->|(c & -> & _)].
  - now intros [= <-].
  - discriminate.
Qed.

Lemma export_loop_raises_at b64decode check_image style total s post :
  is_ok (PptxExporter._hex_to_rgb (PptxExporter.hex_color style s)) = false ->
  forall pre idx done,
    PptxExporter.export_loop b64decode check_image style total idx
      (pre ++ s :: post) done = Raised ValueError.
Proof.
  intros Hbad. induction pre as [|x pre IH]; intros idx done;
    cbn [app PptxExporter.export_loop].
  - rewrite export_slide_layers.
    destruct (hex_to_rgb_value_error_or_in_range (PptxExporter.hex_color style s))
      as [->|(c & Hc & _)]; [reflexivity|].
    rewrite Hc in Hbad. discriminate Hbad.
  - destruct (PptxExporter.export_slide b64decode check_image style total idx x)
      as [page|e] eqn:E; cbn [rbind].
    + apply IH.
    + now rewrite (export_slide_raises_value_error _ _ _ _ _ _ _ E).
Qed.

(** X7: one slide whose colour string does not convert aborts the whole
    export: [export] raises [ValueError] wherever the slide stands in the
    deck, whatever the other slides are, and whatever the destination is: the
    document is never handed to [save]. *)
Theorem export_aborts_on_bad_color
    (b64decode : string -> Result string)
    (check_image : string -> Result unit)
    (save : Presentation -> string -> Result unit)
    (style : StyleProfile) (output_path : string)
    (pre post : list SlideContent) (s : SlideContent) :
  is_ok (PptxExporter._hex_to_rgb (PptxExporter.hex_color style s)) = false ->
  PptxExporter.export b64decode check_image save (pre ++ s :: post)
    output_path style = Raised ValueError.
Proof.
  intros Hbad. unfold PptxExporter.export, PptxExporter.build.
  now rewrite (export_loop_raises_at b64decode check_image style _ s post Hbad).
Qed.

Lemma export_aborts_on_bad_color_witness :
  PptxExporter.export (fun _ => Raised BinasciiError) (fun _ => Ok tt)
    (fun _ _ => Ok tt)
    ([plain_slide "examples" "One" "first"]
       ++ plain_slide "accent" "Two" "second" :: [])
    "deck.pptx"
    {| name := "Custom"; layout_template_name := "metro";
       base_prompt_modifier := "";
       logic_color_map := {[ "accent" := "red" ]};
       mascot_actions := ∅ |}
  = Raised ValueError.
Proof.
  apply (export_aborts_on_bad_color (fun _ => Raised BinasciiError)
           (fun _ => Ok tt) (fun _ _ => Ok tt)).
  vm_compute. reflexivity.
Defined.

(** ** The two outputs on every deck *)




(** X10: under a well-formed profile, the page and the card of every slide
    of every deck carry the same accent colour (the card's colour string,
    read as a browser reads it, is the colour of the page's line) and the
    same badge text. *)
Theorem outputs_agree_on_accent_and_badge_of_every_deck
    (b64decode : string -> Result string)
    (check_image : string -> Result unit)
    (css : string) (slide_contents : list SlideContent) (style : StyleProfile) :
  well_formed style ->
  exists prs,
    PptxExporter.build b64decode check_image slide_contents style = Ok prs
    /\ forall k content, slide_contents !! k = Some content ->
         exists page card,
           slides prs !! k = Some page
           /\ container (PresentationRenderer.render css slide_contents style) !! k
              = Some card
           /\ line_style card
              = "background-color: " +:+ PresentationRenderer.color style content
                  +:+ ";"
           /\ Pptx.accent page
              = Css.hex_color_rgb (PresentationRenderer.color style content)
           /\ Pptx.badge_texts page = [badge_text card].
Proof. apply outputs_agree_on_accent_and_badge. Qed.

Lemma outputs_agree_on_accent_and_badge_of_every_deck_witness :
  exists prs,
    PptxExporter.build (fun _ => Raised BinasciiError) (fun _ => Ok tt)
      [plain_slide "point_opening" "One" "first";
       plain_slide "unknown" "Two" "second"] WARM_WOOD_STYLE = Ok prs
    /\ map Pptx.accent (slides prs)
       = [Some {| red := 222; green := 184; blue := 135 |}; Some gray_51]
    /\ map line_style
         (container (PresentationRenderer.render ""
            [plain_slide "point_opening" "One" "first";
             plain_slide "unknown" "Two" "second"] WARM_WOOD_STYLE))
       = ["background-color: #DEB887;"; "background-color: #333;"].
Proof.
  destruct (outputs_agree_on_accent_and_badge_of_every_deck
              (fun _ => Raised BinasciiError) (fun _ => Ok tt) ""
              [plain_slide "point_opening" "One" "first";
               plain_slide "unknown" "Two" "second"] WARM_WOOD_STYLE
              (catalog_well_formed WARM_WOOD_STYLE
                 (or_intror (or_intror (or_intror (or_introl eq_refl))))))
    as (prs & Hbuild & _).
  exists prs. split; [exact Hbuild|].
  vm_compute in Hbuild. injection Hbuild as <-. split; vm_compute; reflexivity.
Defined.

(** X11: the renderer never fails, whatever the profile's colour strings
    are: it writes one card per slide, in input order, the card at position
    [k] (from 0) carrying the slide's title and body as they are, the badge
    [k + 1] padded to two digits, and the profile's colour string for the
    slide's tag as it is, even one the exporter would refuse. *)
Theorem render_cards_in_order
    (css : string) (slide_contents : list SlideContent) (style : StyleProfile) :
  head_css (PresentationRenderer.render css slide_contents style) = css
  /\ length (container (PresentationRenderer.render css slide_contents style))
     = length slide_contents
  /\ forall k content, slide_contents !! k = Some content ->
       exists card,
         container (PresentationRenderer.render css slide_contents style) !! k
         = Some card
         /\ h1_text card = title content
         /\ body_paragraph card = body_text content
         /\ badge_text card = Py.zfill 2 (Py.str (Z.of_nat (k + 1)))
         /\ line_style card
            = "background-color: "
                +:+ default "#333" (logic_color_map style !! framework_section content)
                +:+ ";".
Proof.
  split; [reflexivity|]. split.
  - cbn [PresentationRenderer.render container]. unfold Jinja.for_ at 1.
    apply length_imap.
  - intros k content Hk.
    destruct (render_card css slide_contents style k content Hk)
      as (card & Hcard & _ & Hline & Hbadge & Ht & Hb).
    exists card. split; [exact Hcard|]. split; [exact Ht|]. split; [exact Hb|].
    split; [now rewrite Hbadge, format_02d_zfill | exact Hline].
Qed.

Lemma render_cards_in_order_witness :
  map (fun card => (badge_text card, h1_text card, line_style card))
    (container
       (PresentationRenderer.render ""
          [plain_slide "accent" "One" "first"; plain_slide "other" "Two" "second"]
          {| name := "Custom"; layout_template_name := "metro";
             base_prompt_modifier := "";
             logic_color_map := {[ "accent" := "red" ]};
             mascot_actions := ∅ |}))
  = [("01", "One", "background-color: red;");
     ("02", "Two", "background-color: #333;")].
Proof.
  destruct (render_cards_in_order ""
              [plain_slide "accent" "One" "first"; plain_slide "other" "Two" "second"]
              {| name := "Custom"; layout_template_name := "metro";
                 base_prompt_modifier := "";
                 logic_color_map := {[ "accent" := "red" ]};
                 mascot_actions := ∅ |}) as (_ & _ & Hcards).
  destruct (Hcards 0%nat _ eq_refl) as (card0 & H0 & _).
  destruct (Hcards 1%nat _ eq_refl) as (card1 & H1 & _).
  vm_compute. reflexivity.
Defined.

(** ** Style keys *)

Lemma value_in_members t : value t ∈ value <$> StyleType_members.
Proof. apply list_elem_of_fmap. exists t. split; [reflexivity|].
  apply list_elem_of_In. destruct t; cbn; tauto. Qed.

Lemma StyleType_of_value t : App.StyleType_of (KeyStr (value t)) = Some t.
Proof. destruct t; reflexivity. Qed.

Lemma StyleType_of_member_value k :
  key_string k ∈ value <$> StyleType_members ->
  exists t, App.StyleType_of k = Some t /\ value t = key_string k.
Proof.
  intros H. apply list_elem_of_fmap in H as (t & Ht & _).
  exists t. split; [|now symmetry].
  destruct k as [s|t']; cbn in *.
  - subst s. apply StyleType_of_value.
  - f_equal. destruct t, t'; try reflexivity; discriminate Ht.
Qed.

(** X12: the slide editor's remap normalises every key: its result is
    always the value of a [StyleType] member, so that [StyleType(...)] never
    raises on it; a key that already is a member value is left as it is; and
    remapping twice is remapping once. *)
Theorem remap_style_normalises (k : StyleKey) :
  key_string (remap_style k) ∈ value <$> StyleType_members
  /\ (exists t, App.StyleType_of (remap_style k) = Some t
                /\ value t = key_string (remap_style k))
  /\ remap_style (remap_style k) = remap_style k
  /\ (key_string k ∈ value <$> StyleType_members -> remap_style k = k).
Proof.
  assert (H1 : key_string (remap_style k) ∈ value <$> StyleType_members).
  { unfold remap_style. case_bool_decide as Hk; [exact Hk|]. apply value_in_members. }
  split; [exact H1|]. split; [now apply StyleType_of_member_value|]. split.
  - unfold remap_style at 1. now rewrite bool_decide_eq_true_2.
  - intros Hk. unfold remap_style. now rewrite bool_decide_eq_true_2.
Qed.

Lemma remap_style_normalises_witness :
  remap_style (KeyStr "tech_gradient") = KeyStr "tech_gradient".
Proof.
  destruct (remap_style_normalises (KeyStr "tech_gradient")) as (_ & _ & _ & H).
  apply H. cbn. repeat constructor.
Defined.

(** ** Registry profiles in the exporter *)

Lemma catalog_five_keys style :
  In style catalog ->
  dom (logic_color_map style)
  = ({[ "point_opening"; "reasons"; "examples"; "point_closing"; "default" ]}
     : gset string).
Proof.
  intros H. cbn in H.
  destruct H as [<-|[<-|[<-|[<-|[<-|[<-|[]]]]]]];
    cbv [METRO_STYLE MODERN_CAFE_STYLE MINIMAL_CONCRETE_STYLE WARM_WOOD_STYLE
         TECH_GRADIENT_STYLE FLAT_INFOGRAPHIC_STYLE logic_color_map color_map];
    rewrite !list_to_map_cons, list_to_map_nil, !dom_insert_L, dom_empty_L,
      union_empty_r_L; reflexivity.
Qed.

(** X13: whatever key is looked up, the profile [StyleRegistry.get]
    returns has exactly the five tags ["point_opening"], ["reasons"],
    ["examples"], ["point_closing"] and ["default"], each with a colour the
    exporter converts; so with a profile taken from the registry the exporter
    builds its document for every deck, one page per slide. *)
Theorem registry_profile_always_exports
    (b64decode : string -> Result string)
    (check_image : string -> Result unit)
    (k : StyleKey) (slide_contents : list SlideContent) :
  dom (logic_color_map (StyleRegistry.get k))
  = ({[ "point_opening"; "reasons"; "examples"; "point_closing"; "default" ]}
     : gset string)
  /\ well_formed (StyleRegistry.get k)
  /\ exists prs,
       PptxExporter.build b64decode check_image slide_contents
         (StyleRegistry.get k) = Ok prs
       /\ length (slides prs) = length slide_contents.
Proof.
  pose proof (registry_get_in_catalog k) as Hin.
  split; [now apply catalog_five_keys|].
  pose proof (catalog_well_formed _ Hin) as Hwf. split; [exact Hwf|].
  destruct (build_pages b64decode check_image (fun _ _ => Ok tt)
              slide_contents _ Hwf) as (prs & Hbuild & _ & Hlen & _).
  exists prs. split; assumption.
Qed.

(** ** Deck assembly *)

Lemma slide_contents_from_app idx pre rest :
  App.slide_contents_from idx (pre ++ rest)
  = (App.slide_contents_from idx pre
       ++ App.slide_contents_from (idx + length pre) rest)%list.
Proof.
  revert idx. induction pre as [|sd pre IH]; intros idx; cbn [app length].
  - now rewrite Nat.add_0_r.
  - cbn [App.slide_contents_from]. rewrite IH.
    replace (S idx + length pre)%nat with (idx + S (length pre))%nat by lia.
    now destruct (App.skipped sd).
Qed.

Lemma slide_contents_from_fields idx slides :
  map (fun c => (framework_section c, body_text c, background_image_base64 c))
    (App.slide_contents_from idx slides)
  = map (fun sd => (tag_of sd, default "" (sd_content sd), sd_image sd))
      (kept_slides slides)
  /\ Forall (fun c => Py.truthy (background_image_base64 c) = true
                      /\ rationale c = None)
       (App.slide_contents_from idx slides).
Proof.
  revert idx. induction slides as [|sd slides IH]; intros idx.
  - split; [reflexivity|constructor].
  - destruct (IH (S idx)) as [IH1 IH2].
    cbn [App.slide_contents_from kept_slides List.filter].
    destruct (App.skipped sd) eqn:E; cbn [negb].
    + split; assumption.
    + cbn [map]. split.
      * f_equal. exact IH1.
      * constructor; [|exact IH2]. cbn. split; [|reflexivity].
        unfold App.skipped in E. apply orb_false_elim in E as [_ E].
        now apply negb_false_iff in E.
Qed.

Lemma slide_contents_from_length idx slides :
  length (App.slide_contents_from idx slides) = length (kept_slides slides).
Proof.
  destruct (slide_contents_from_fields idx slides) as [H _].
  apply (f_equal (@length _)) in H. now rewrite !length_map in H.
Qed.


Lemma deck_style_in_catalog slides : In (App.deck_style slides) catalog.
Proof. apply registry_get_in_catalog. Qed.

(** X15: slide identifiers and badges count differently: a kept entry at
    position [length pre] of the session (from 0) becomes a slide whose
    identifier is ["slide_"] followed by that position plus one, while its
    page in the exported document stands at the number of kept entries
    before it and its badge shows that number plus one. *)
Theorem slide_id_keeps_position_badge_renumbers
    (b64decode : string -> Result string)
    (check_image : string -> Result unit)
    (pre post : list SlideData) (sd : SlideData) :
  App.skipped sd = false ->
  exists prs content page,
    PptxExporter.build b64decode check_image
      (App.slide_contents (pre ++ sd :: post))
      (App.deck_style (pre ++ sd :: post)) = Ok prs
    /\ App.slide_contents (pre ++ sd :: post) !! length (kept_slides pre)
       = Some content
    /\ slide_id content = "slide_" +:+ Py.str (Z.of_nat (length pre + 1))
    /\ slides prs !! length (kept_slides pre) = Some page
    /\ Pptx.badge_texts page
       = [Py.zfill 2 (Py.str (Z.of_nat (length (kept_slides pre) + 1)))].
Proof.
  intros Hkeep.
  set (deck := App.slide_contents (pre ++ sd :: post)).
  destruct (build_pages b64decode check_image (fun _ _ => Ok tt) deck
              (App.deck_style (pre ++ sd :: post))
              (catalog_well_formed _ (deck_style_in_catalog _)))
    as (prs & Hbuild & _ & _ & Hpages).
  assert (Hdeck : exists content,
             deck !! length (kept_slides pre) = Some content
             /\ slide_id content = "slide_" +:+ Py.str (Z.of_nat (length pre + 1))).
  { subst deck. unfold App.slide_contents. rewrite slide_contents_from_app.
    rewrite lookup_app_r by (rewrite slide_contents_from_length; lia).
    rewrite slide_contents_from_length, Nat.sub_diag.
    cbn [App.slide_contents_from]. rewrite Hkeep. eexists. split; reflexivity. }
  destruct Hdeck as (content & Hc & Hid).
  destruct (Hpages _ _ Hc) as (c & _ & Hpage).
  exists prs, content. eexists. split; [exact Hbuild|]. split; [exact Hc|].
  split; [exact Hid|]. split; [exact Hpage|].
  now destruct (page_readings b64decode check_image content
                  (length (kept_slides pre) + 1) (length deck) c) as (_ & Hb & _).
Qed.

Lemma slide_id_keeps_position_badge_renumbers_witness :
  exists prs content,
    PptxExporter.build (fun _ => Raised BinasciiError) (fun _ => Ok tt)
      (App.slide_contents
         ([{| sd_title := Some "Draft"; sd_content := Some "";
              sd_style := Some (KeyEnum TAIPEI_METRO); sd_image := None;
              sd_generated := Some false |}]
            ++ generated_slide "Ready" "text" (KeyEnum TAIPEI_METRO) "QUJD" :: []))
      (App.deck_style
         ([{| sd_title := Some "Draft"; sd_content := Some "";
              sd_style := Some (KeyEnum TAIPEI_METRO); sd_image := None;
              sd_generated := Some false |}]
            ++ generated_slide "Ready" "text" (KeyEnum TAIPEI_METRO) "QUJD" :: []))
    = Ok prs
    /\ App.slide_contents
         ([{| sd_title := Some "Draft"; sd_content := Some "";
              sd_style := Some (KeyEnum TAIPEI_METRO); sd_image := None;
              sd_generated := Some false |}]
            ++ generated_slide "Ready" "text" (KeyEnum TAIPEI_METRO) "QUJD" :: [])
       !! 0%nat = Some content
    /\ slide_id content = "slide_2"
    /\ map Pptx.badge_texts (slides prs) = [["01"]].
Proof.
  destruct (slide_id_keeps_position_badge_renumbers
              (fun _ => Raised BinasciiError) (fun _ => Ok tt)
              [{| sd_title := Some "Draft"; sd_content := Some "";
                  sd_style := Some (KeyEnum TAIPEI_METRO); sd_image := None;
                  sd_generated := Some false |}]
              []
              (generated_slide "Ready" "text" (KeyEnum TAIPEI_METRO) "QUJD")
              eq_refl)
    as (prs & content & page & Hbuild & Hc & Hid & _).
  exists prs, content. split; [exact Hbuild|]. split; [exact Hc|].
  split; [exact Hid|].
  vm_compute in Hbuild. injection Hbuild as <-. vm_compute. reflexivity.
Defined.


Lemma catalog_has_no_theme_tag style t :
  In style catalog -> t <> DEFAULT -> logic_color_map style !! value t = None.
Proof.
  intros H Ht. cbn in H.
  destruct H as [<-|[<-|[<-|[<-|[<-|[<-|[]]]]]]]; destruct t;
    try (vm_compute; reflexivity); now destruct Ht.
Qed.

Lemma slide_contents_themed idx session :
  Forall themed session ->
  Forall (fun c => exists t, framework_section c = value t /\ t <> DEFAULT)
    (App.slide_contents_from idx session).
Proof.
  intros H. revert idx. induction H as [|sd session Hsd _ IH]; intros idx.
  - constructor.
  - cbn [App.slide_contents_from]. destruct (App.skipped sd); [apply IH|].
    constructor; [|apply IH].
    destruct Hsd as (style & t & Hs & Hk & Ht). exists t. cbn. now rewrite Hs.
Qed.

Lemma export_loop_style_ext b64decode check_image style1 style2 total :
  forall rest idx done,
    Forall (fun c => PptxExporter.hex_color style1 c
                     = PptxExporter.hex_color style2 c) rest ->
    PptxExporter.export_loop b64decode check_image style1 total idx rest done
    = PptxExporter.export_loop b64decode check_image style2 total idx rest done.
Proof.
  induction rest as [|content rest IH]; intros idx done H; [reflexivity|].
  inversion H as [|? ? Hc Hrest]; subst. cbn [PptxExporter.export_loop].
  rewrite !export_slide_layers, Hc.
  destruct (PptxExporter._hex_to_rgb _); [|reflexivity]. cbn [rbind].
  now apply IH.
Qed.

(** X17: in a session whose entries all carry one of the six themes as
    their style, the theme has no effect on the exported document and on the
    preview: every slide's tag is the theme's own name, which is no key of
    any catalog colour map, so every page gets the fallback gray
    (51, 51, 51), every card the colour ["#333"], and the document is the one
    the Taipei Metro profile gives. *)
Theorem themed_session_exports_in_fallback_gray
    (b64decode : string -> Result string)
    (check_image : string -> Result unit)
    (css : string) (session : list SlideData) :
  Forall themed session ->
  exists prs,
    PptxExporter.build b64decode check_image (App.slide_contents session)
      (App.deck_style session) = Ok prs
    /\ Forall (fun page => Pptx.accent page = Some gray_51) (slides prs)
    /\ Forall (fun card => line_style card = "background-color: #333;")
         (container (App.create_html_preview css session))
    /\ PptxExporter.build b64decode check_image (App.slide_contents session)
         METRO_STYLE = Ok prs.
Proof.
  intros Hthemed.
  pose proof (slide_contents_themed 0 session Hthemed) as Htags.
  fold (App.slide_contents session) in Htags.
  assert (Hgray : forall style, In style catalog ->
            Forall (fun c => PptxExporter.hex_color style c = "#333333"
                             /\ PresentationRenderer.color style c = "#333")
              (App.slide_contents session)).
  { intros style Hin. eapply Forall_impl; [exact Htags|].
    intros c (t & Hc & Ht). cbn beta.
    unfold PptxExporter.hex_color, PresentationRenderer.color.
    now rewrite Hc, (catalog_has_no_theme_tag style t Hin Ht). }
  pose proof (Hgray _ (deck_style_in_catalog session)) as Hdeck.
  destruct (build_pages b64decode check_image (fun _ _ => Ok tt)
              (App.slide_contents session) (App.deck_style session)
              (catalog_well_formed _ (deck_style_in_catalog _)))
    as (prs & Hbuild & _ & Hlen & Hpages).
  exists prs. split; [exact Hbuild|]. split; [|split].
  - apply Forall_lookup_2. intros k page Hk.
    assert (Hlt : (k < length (App.slide_contents session))%nat)
      by (rewrite <- Hlen; now apply lookup_lt_Some in Hk).
    destruct (lookup_lt_is_Some_2 _ k Hlt) as [content Hc].
    destruct (Hpages k content Hc) as (c & Hrgb & Hpage).
    assert (Hp : page = (background_layer b64decode check_image content
                           ++ chrome (k + 1) (length (App.slide_contents session))
                                c content)%list).
    { pose proof (eq_trans (eq_sym Hk) Hpage) as E. now injection E. }
    destruct (page_readings b64decode check_image content (k + 1)
                (length (App.slide_contents session)) c) as (_ & _ & _ & Ha & _).
    rewrite Hp, Ha. f_equal.
    destruct (proj1 (Forall_lookup _ _) Hdeck k content Hc) as [Hhex _].
    rewrite Hhex in Hrgb. now injection Hrgb as <-.
  - apply Forall_lookup_2. intros k card Hk. unfold App.create_html_preview in Hk.
    assert (Hlt : (k < length (App.slide_contents session))%nat).
    { apply lookup_lt_Some in Hk.
      cbn [PresentationRenderer.render container] in Hk. unfold Jinja.for_ in Hk.
      now rewrite length_imap in Hk. }
    destruct (lookup_lt_is_Some_2 _ k Hlt) as [content Hc].
    destruct (render_card css _ (App.deck_style session) k content Hc)
      as (card' & Hcard & _ & Hline & _).
    assert (card = card') by congruence. subst card'.
    destruct (proj1 (Forall_lookup _ _) Hdeck k content Hc) as [_ Hcol].
    now rewrite Hline, Hcol.
  - rewrite <- Hbuild. unfold PptxExporter.build. f_equal.
    apply export_loop_style_ext.
    pose proof (Hgray METRO_STYLE (or_introl eq_refl)) as Hmetro.
    apply Forall_lookup_2. intros k content Hc.
    destruct (proj1 (Forall_lookup _ _) Hdeck k content Hc) as [-> _].
    destruct (proj1 (Forall_lookup _ _) Hmetro k content Hc) as [-> _].
    reflexivity.
Qed.

Lemma themed_session_exports_in_fallback_gray_witness :
  exists prs,
    PptxExporter.build (fun _ => Raised BinasciiError) (fun _ => Ok tt)
      (App.slide_contents
         [generated_slide "One" "first" (KeyEnum MODERN_CAFE) "QUJD";
          generated_slide "Two" "second" (KeyStr "warm_wood") "QUJD"])
      (App.deck_style
         [generated_slide "One" "first" (KeyEnum MODERN_CAFE) "QUJD";
          generated_slide "Two" "second" (KeyStr "warm_wood") "QUJD"]) = Ok prs
    /\ App.deck_style
         [generated_slide "One" "first" (KeyEnum MODERN_CAFE) "QUJD";
          generated_slide "Two" "second" (KeyStr "warm_wood") "QUJD"]
       = MODERN_CAFE_STYLE
    /\ map Pptx.accent (slides prs) = [Some gray_51; Some gray_51].
Proof.
  assert (Hthemed : Forall themed
            [generated_slide "One" "first" (KeyEnum MODERN_CAFE) "QUJD";
             generated_slide "Two" "second" (KeyStr "warm_wood") "QUJD"]).
  { constructor; [|constructor; [|constructor]].
    - exists (KeyEnum MODERN_CAFE), MODERN_CAFE. repeat split. discriminate.
    - exists (KeyStr "warm_wood"), WARM_WOOD. repeat split. discriminate. }
  destruct (themed_session_exports_in_fallback_gray
              (fun _ => Raised BinasciiError) (fun _ => Ok tt) "" _ Hthemed)
    as (prs & Hbuild & _).
  exists prs. split; [exact Hbuild|]. split; [vm_compute; reflexivity|].
  vm_compute in Hbuild. injection Hbuild as <-. vm_compute. reflexivity.
Defined.

Lemma member_value_truthy t : Py.truthy (Some (value t)) = true.
Proof. destruct t; reflexivity. Qed.

(** X18: the deck's profile is decided by the style of the first entry of
    the session alone.  When that style went through the slide editor's
    remap, the deck's profile is what [StyleRegistry.get] gives for the
    remapped key; a legacy key that reaches the assembly as it is gets the
    Taipei Metro profile, since the assembly converts the key without the
    remap table. *)
Theorem deck_style_of_first_entry
    (first : SlideData) (rest : list SlideData) (k : StyleKey) :
  (sd_style first = Some (remap_style k) ->
   App.deck_style (first :: rest) = StyleRegistry.get (remap_style k))
  /\ (sd_style first = Some k -> is_Some (old_style_map !! key_string k) ->
      App.deck_style (first :: rest) = METRO_STYLE).
Proof.
  split.
  - intros Hs. unfold App.deck_style, App.deck_style_type. rewrite Hs.
    destruct (remap_style_normalises k) as (_ & (t & Ht & Hv) & _).
    rewrite <- Hv, member_value_truthy, Ht.
    change (default TAIPEI_METRO (Some t)) with t.
    unfold StyleRegistry.get. change (key_string (KeyEnum t)) with (value t).
    now rewrite Hv.
  - intros Hs [t Ht]. unfold App.deck_style, App.deck_style_type. rewrite Hs.
    apply old_style_map_entries in Ht. destruct k as [legacy|u]; cbn in Ht.
    + destruct Ht as [H|[H|[H|[H|[H|[]]]]]]; injection H as <- <-;
        vm_compute; reflexivity.
    + exfalso. destruct Ht as [H|[H|[H|[H|[H|[]]]]]]; destruct u; discriminate H.
Qed.

Lemma deck_style_of_first_entry_witness :
  App.deck_style
    [generated_slide "One" "first" (remap_style (KeyStr "creative")) "QUJD"]
  = MODERN_CAFE_STYLE
  /\ App.deck_style [generated_slide "One" "first" (KeyStr "creative") "QUJD"]
     = METRO_STYLE.
Proof.
  split.
  - rewrite (proj1 (deck_style_of_first_entry
                      (generated_slide "One" "first"
                         (remap_style (KeyStr "creative")) "QUJD")
                      [] (KeyStr "creative")) eq_refl).
    vm_compute. reflexivity.
  - apply (proj2 (deck_style_of_first_entry
                    (generated_slide "One" "first" (KeyStr "creative") "QUJD")
                    [] (KeyStr "creative")) eq_refl).
    vm_compute. eauto.
Defined.

(** ** Base64 payloads *)

Lemma string_ind3 (P : string -> Prop) :
  P "" ->
  (forall a, P (String a "")) ->
  (forall a b, P (String a (String b ""))) ->
  (forall a b c rest, P rest -> P (String a (String b (String c rest)))) ->
  forall s, P s.
Proof.
  intros H0 H1 H2 H3 s.
  assert (H : forall n s, (String.length s <= n)%nat -> P s).
  { induction n as [|n IH]; intros [|a [|b [|c rest]]] Hlen; cbn in Hlen;
      try lia; auto.
    apply H3, IH. lia. }
  exact (H (String.length s) s (le_n _)).
Qed.

Lemma get_In i s c :
  String.get i s = Some c -> In c (list_ascii_of_string s).
Proof.
  revert i. induction s as [|a s IH]; intros [|i]; cbn; try discriminate.
  - intros [= ->]. now left.
  - intros H. right. now apply (IH i).
Qed.

Lemma b2a_alphabet n :
  In (Base64.b2a n) (list_ascii_of_string Base64.alphabet)
  \/ Base64.b2a n = "="%char.
Proof.
  unfold Base64.b2a.
  destruct (String.get (N.to_nat n) Base64.alphabet) as [c|] eqn:E; cbn.
  - left. now apply (get_In _ _ _ E).
  - now right.
Qed.

Lemma b2a_not_comma n : Ascii.eqb (Base64.b2a n) "," = false.
Proof.
  assert (H : forallb (fun c => negb (Ascii.eqb c ","))
                (list_ascii_of_string Base64.alphabet) = true) by reflexivity.
  rewrite forallb_forall in H.
  destruct (b2a_alphabet n) as [Hin| ->]; [|reflexivity].
  now apply negb_true_iff, H.
Qed.

(** X19: the text [base64.b64encode] returns has four characters for
    every three bytes, the last group padded, so its length is
    [4 * ceil(n / 3)]; it has no comma; each of its characters is one of the
    64 of the alphabet or [=]; and it is empty only for empty data. *)
Theorem b64encode_shape (data : string) :
  String.length (Base64.b64encode data)
  = (4 * ((String.length data + 2) / 3))%nat
  /\ count_char "," (Base64.b64encode data) = O
  /\ (forall c, In c (list_ascii_of_string (Base64.b64encode data)) ->
        In c (list_ascii_of_string Base64.alphabet) \/ c = "="%char)
  /\ (Base64.b64encode data = "" <-> data = "").
Proof.
  induction data as [|a|a b|a b c rest IH] using string_ind3.
  - repeat split; try reflexivity. intros c [].
  - split; [reflexivity|]. split; [|split].
    + cbn [Base64.b64encode count_char]. now rewrite !b2a_not_comma.
    + cbn [Base64.b64encode list_ascii_of_string]. intros c [<-|[<-|[<-|[<-|[]]]]];
        try apply b2a_alphabet; now right.
    + split; discriminate.
  - split; [reflexivity|]. split; [|split].
    + cbn [Base64.b64encode count_char]. now rewrite !b2a_not_comma.
    + cbn [Base64.b64encode list_ascii_of_string]. intros c [<-|[<-|[<-|[<-|[]]]]];
        try apply b2a_alphabet; now right.
    + split; discriminate.
  - destruct IH as (Hlen & Hcomma & Hchars & _). split; [|split; [|split]].
    + cbn [Base64.b64encode String.length]. rewrite Hlen.
      replace (S (S (S (String.length rest))) + 2)%nat
        with (1 * 3 + (String.length rest + 2))%nat by lia.
      rewrite Nat.div_add_l by lia. lia.
    + cbn [Base64.b64encode count_char]. now rewrite !b2a_not_comma.
    + cbn [Base64.b64encode list_ascii_of_string].
      intros x [<-|[<-|[<-|[<-|Hx]]]]; try apply b2a_alphabet. now apply Hchars.
    + split; discriminate.
Qed.

Example b64encode_examples :
  Base64.b64encode "" = "" /\ Base64.b64encode "f" = "Zg=="
  /\ Base64.b64encode "fo" = "Zm8=" /\ Base64.b64encode "foo" = "Zm9v"
  /\ Base64.b64encode "foobar" = "Zm9vYmFy" /\ Base64.b64encode "ABC" = "QUJD".
Proof. repeat split; reflexivity. Qed.

(** ** The image provider *)

Section ProviderFacts.

Variable Image : Type.
Variable image_bytes : Image -> Outcome string.

Local Abbreviation parse_parts := (Gemini3Provider.parse_parts Image image_bytes).
Local Abbreviation _parse_response :=
  (Gemini3Provider._parse_response Image image_bytes).

Lemma truthy_Some_nonempty o :
  Py.truthy o = true -> exists s, o = Some s /\ s <> "".
Proof.
  destruct o as [[|a s]|]; try discriminate. intros _. eexists. split; [reflexivity|].
  discriminate.
Qed.

Lemma parse_response_outcome response :
  let r := _parse_response response in
  (success r = true
   /\ (exists s, image_base64 r = Some s /\ s <> "") /\ error r = None)
  \/ (success r = false /\ image_base64 r = None
      /\ exists message, error r = Some message).
Proof.
  unfold Gemini3Provider._parse_response.
  destruct (match response with
            | Some parts => parse_parts parts None None
            | None => Failed "'NoneType' object is not iterable"
            end) as [[text img]|m].
  - destruct (Py.truthy img) eqn:E.
    + left. cbn. split; [reflexivity|]. split; [|reflexivity].
      now apply truthy_Some_nonempty.
    + right. cbn. eauto.
  - right. cbn. eauto.
Qed.

Lemma parse_parts_failed parts img message :
  In img (part_images parts) -> image_bytes img = Failed message ->
  forall text image_b64,
    exists message', parse_parts parts text image_b64 = Failed message'.
Proof.
  unfold part_images.
  induction parts as [|part parts IH]; intros Hin Hfail text image_b64;
    [destruct Hin|].
  cbn [omap list_omap] in Hin. cbn [Gemini3Provider.parse_parts].
  destruct (part_text part) as [t|].
  - now apply IH.
  - destruct (part_image part) as [img'|].
    + destruct (image_bytes img') as [bytes|m'] eqn:E; [|eauto].
      apply IH; [|exact Hfail]. destruct Hin as [->|Hin]; [congruence|exact Hin].
    + now apply IH.
Qed.

Lemma parse_parts_done (bytes_of : Image -> string) parts :
  (forall img, In img (part_images parts) -> image_bytes img = Done (bytes_of img)) ->
  forall text image_b64,
    parse_parts parts text image_b64
    = Done (match last (part_texts parts) with
            | Some t => Some t
            | None => text
            end,
            match last (part_images parts) with
            | Some img => Some (Base64.b64encode (bytes_of img))
            | None => image_b64
            end).
Proof.
  unfold part_images, part_texts.
  induction parts as [|part parts IH]; intros Hall text image_b64; [reflexivity|].
  cbn [omap list_omap Gemini3Provider.parse_parts] in *.
  destruct (part_text part) as [t|].
  - rewrite IH by exact Hall. rewrite last_cons.
    repeat case_match; congruence.
  - destruct (part_image part) as [img|].
    + rewrite (Hall img (or_introl eq_refl)).
      rewrite IH by (intros; apply Hall; now right). rewrite last_cons.
      repeat case_match; congruence.
    + now rewrite IH by exact Hall.
Qed.

End ProviderFacts.

(** X20: whatever the SDK call and the image conversion do,
    [generate_slide_image] returns and its result is of one of two kinds: a
    success with a non-empty image payload and no error message, or a failure
    with no image and an error message. *)
Theorem generate_slide_image_outcome
    (Image Cost : Type)
    (_call_sdk : ImageGenRequest -> Outcome (option (list (Part Image))))
    (image_bytes : Image -> Outcome string)
    (calculate_cost : nat -> string -> string -> Cost)
    (prompt : string) (style : StyleKey) :
  let r := App.generate_slide_image _call_sdk image_bytes calculate_cost
             prompt style in
  (App.si_success r = true
   /\ (exists s, App.si_image_base64 r = Some s /\ s <> "") /\ App.si_error r = None)
  \/ (App.si_success r = false /\ App.si_image_base64 r = None
      /\ exists message, App.si_error r = Some message).
Proof.
  unfold App.generate_slide_image, Gemini3Provider.generate.
  cbn [App.si_success App.si_image_base64 App.si_error].
  destruct (_call_sdk _) as [response|m].
  - apply parse_response_outcome.
  - right. cbn. eauto.
Qed.

(** X21: one image part whose conversion fails makes the whole response a
    failure, wherever the part stands and even when other parts carry good
    images and text: the result has no image and no text, and its error
    message starts with the parse-failure prefix. *)
Theorem parse_response_fails_on_bad_image
    (Image : Type) (image_bytes : Image -> Outcome string)
    (parts : list (Part Image)) (img : Image) (message : string) :
  In img (part_images parts) ->
  image_bytes img = Failed message ->
  let r := Gemini3Provider._parse_response Image image_bytes (Some parts) in
  success r = false /\ image_base64 r = None /\ text_content r = None
  /\ exists message', error r = Some ("解析失敗: " +:+ message').
Proof.
  intros Hin Hfail. unfold Gemini3Provider._parse_response.
  destruct (parse_parts_failed Image image_bytes parts img message Hin Hfail
              None None) as [m' ->].
  cbn. eauto.
Qed.

Lemma parse_response_fails_on_bad_image_witness :
  Gemini3Provider._parse_response nat
    (fun n => if Nat.eqb n 0 then Failed "disk full" else Done "ABC")
    (Some [{| part_text := Some "caption"; part_image := None |};
           {| part_text := None; part_image := Some 0%nat |};
           {| part_text := None; part_image := Some 1%nat |}])
  = {| success := false; image_base64 := None; text_content := None;
       error := Some "解析失敗: disk full" |}.
Proof.
  destruct (parse_response_fails_on_bad_image nat
              (fun n => if Nat.eqb n 0 then Failed "disk full" else Done "ABC")
              [{| part_text := Some "caption"; part_image := None |};
               {| part_text := None; part_image := Some 0%nat |};
               {| part_text := None; part_image := Some 1%nat |}]
              0%nat "disk full" (or_introl eq_refl) eq_refl) as (_ & _ & _ & _).
  reflexivity.
Defined.

(** X22: when every image of the response converts, the result's text is
    the text of the last part that has one, and the image is the encoding of
    the last image among the parts without text; the response is a success
    exactly when that last image has at least one byte, and a failure with
    the no-image message otherwise, the text being kept in both cases. *)
Theorem parse_response_last_part_wins
    (Image : Type) (image_bytes : Image -> Outcome string)
    (bytes_of : Image -> string) (parts : list (Part Image)) :
  (forall img, In img (part_images parts) ->
               image_bytes img = Done (bytes_of img)) ->
  let r := Gemini3Provider._parse_response Image image_bytes (Some parts) in
  text_content r = last (part_texts parts)
  /\ match last (part_images parts) with
     | Some img =>
         if String.eqb (bytes_of img) ""
         then success r = false /\ image_base64 r = None
              /\ error r = Some "未生成圖片"
         else success r = true /\ error r = None
              /\ image_base64 r = Some (Base64.b64encode (bytes_of img))
     | None =>
         success r = false /\ image_base64 r = None
         /\ error r = Some "未生成圖片"
     end.
Proof.
  intros Hall. unfold Gemini3Provider._parse_response.
  rewrite (parse_parts_done Image image_bytes bytes_of parts Hall).
  destruct (last (part_texts parts)) as [t|];
    destruct (last (part_images parts)) as [img|];
    try (cbn; repeat split; reflexivity).
  - destruct (String.eqb_spec (bytes_of img) "") as [E|E].
    + rewrite E. cbn. repeat split; reflexivity.
    + destruct (bytes_of img) as [|a [|b [|c rest]]]; [congruence| | |];
        cbn; repeat split; reflexivity.
  - destruct (String.eqb_spec (bytes_of img) "") as [E|E].
    + rewrite E. cbn. repeat split; reflexivity.
    + destruct (bytes_of img) as [|a [|b [|c rest]]]; [congruence| | |];
        cbn; repeat split; reflexivity.
Qed.

Lemma parse_response_last_part_wins_witness :
  Gemini3Provider._parse_response string Done
    (Some [{| part_text := None; part_image := Some "foo" |};
           {| part_text := Some "first"; part_image := Some "ignored" |};
           {| part_text := None; part_image := Some "ABC" |};
           {| part_text := Some "second"; part_image := None |}])
  = {| success := true; image_base64 := Some "QUJD";
       text_content := Some "second"; error := None |}.
Proof.
  destruct (parse_response_last_part_wins string Done (fun s => s)
              [{| part_text := None; part_image := Some "foo" |};
               {| part_text := Some "first"; part_image := Some "ignored" |};
               {| part_text := None; part_image := Some "ABC" |};
               {| part_text := Some "second"; part_image := None |}]
              (fun _ _ => eq_refl)) as [_ _].
  reflexivity.
Defined.

(** ** From the provider to the two outputs *)

Lemma after_first_comma_none s :
  count_char "," s = O -> after_first_comma s = s.
Proof.
  intros H. unfold after_first_comma.
  assert (E : after_first_comma_aux s = None).
  { induction s as [|a s IH]; [reflexivity|]. cbn in *.
    destruct (Ascii.eqb a ","); [discriminate|]. now apply IH. }
  now rewrite E.
Qed.

Lemma background_layer_decoded b64decode check_image content payload blob :
  background_image_base64 content = Some payload ->
  payload <> "" -> count_char "," payload = O ->
  b64decode payload = Ok blob -> check_image blob = Ok tt ->
  background_layer b64decode check_image content
  = [Picture blob 0 0 PptxExporter.width PptxExporter.height].
Proof.
  intros Hbg Hne Hc Hdec Hchk. unfold background_layer.
  rewrite Hbg, (truthy_nonempty _ Hne).
  unfold PptxExporter._set_background, PptxExporter.set_background_body.
  rewrite background_payload_one_comma by lia.
  rewrite (after_first_comma_none _ Hc). cbn [rbind].
  rewrite Hdec. cbn [rbind]. rewrite Hchk. reflexivity.
Qed.

(** X23: an image the provider returns reaches both outputs whole.  When
    the conversions of a response succeed and its last image has bytes, the
    payload of the result has no comma; a session entry generated with it,
    wherever it stands in the session, gives a page whose bottom shape is the
    picture of exactly those bytes over the full page (provided the decoder
    returns the bytes for this payload and the picture is accepted), and a
    card whose background is the payload behind a single data-URI prefix. *)
Theorem provider_image_reaches_both_outputs
    (Image : Type) (image_bytes : Image -> Outcome string)
    (bytes_of : Image -> string)
    (b64decode : string -> Result string)
    (check_image : string -> Result unit) (css : string)
    (parts : list (Part Image)) (img : Image)
    (pre post : list SlideData) (sd : SlideData) :
  (forall i, In i (part_images parts) -> image_bytes i = Done (bytes_of i)) ->
  last (part_images parts) = Some img ->
  bytes_of img <> "" ->
  b64decode (Base64.b64encode (bytes_of img)) = Ok (bytes_of img) ->
  check_image (bytes_of img) = Ok tt ->
  sd_generated sd = Some true ->
  sd_image sd
  = image_base64 (Gemini3Provider._parse_response Image image_bytes (Some parts)) ->
  let payload := Base64.b64encode (bytes_of img) in
  let session := (pre ++ sd :: post)%list in
  let k := length (kept_slides pre) in
  success (Gemini3Provider._parse_response Image image_bytes (Some parts)) = true
  /\ count_char "," payload = O
  /\ exists prs page card,
       PptxExporter.build b64decode check_image (App.slide_contents session)
         (App.deck_style session) = Ok prs
       /\ slides prs !! k = Some page
       /\ head page
          = Some (Picture (bytes_of img) 0 0 PptxExporter.width PptxExporter.height)
       /\ container (App.create_html_preview css session) !! k = Some card
       /\ card_style card
          = "background-image: url('" +:+ ("data:image/png;base64," +:+ payload)
              +:+ "');".
Proof.
  intros Hall Hlast Hne Hdec Hchk Hgen Himg. cbv zeta.
  set (payload := Base64.b64encode (bytes_of img)) in *.
  set (session := (pre ++ sd :: post)%list).
  set (k := length (kept_slides pre)).
  destruct (parse_response_last_part_wins Image image_bytes bytes_of parts Hall)
    as [_ Hres].
  rewrite Hlast in Hres.
  destruct (String.eqb_spec (bytes_of img) "") as [E|_]; [contradiction|].
  destruct Hres as (Hsucc & _ & Hpayload). rewrite Hpayload in Himg.
  fold payload in Himg.
  destruct (b64encode_shape (bytes_of img)) as (_ & Hcomma & _ & Hempty).
  assert (Hpne : payload <> "") by (intros E; now apply Hempty in E).
  split; [exact Hsucc|]. split; [exact Hcomma|].
  assert (Hkeep : App.skipped sd = false).
  { unfold App.skipped. rewrite Hgen, Himg. cbn [default negb orb].
    now rewrite (truthy_nonempty _ Hpne). }
  destruct (build_pages b64decode check_image (fun _ _ => Ok tt)
              (App.slide_contents session) (App.deck_style session)
              (catalog_well_formed _ (deck_style_in_catalog _)))
    as (prs & Hbuild & _ & _ & Hpages).
  assert (Hdeck : exists content,
             App.slide_contents session !! k = Some content
             /\ background_image_base64 content = Some payload).
  { subst session k. unfold App.slide_contents. rewrite slide_contents_from_app.
    rewrite lookup_app_r by (rewrite slide_contents_from_length; lia).
    rewrite slide_contents_from_length, Nat.sub_diag.
    cbn [App.slide_contents_from]. rewrite Hkeep. eexists.
    split; [reflexivity|]. exact Himg. }
  destruct Hdeck as (content & Hc & Hbg).
  destruct (Hpages _ _ Hc) as (c & _ & Hpage).
  destruct (render_card css (App.slide_contents session) (App.deck_style session)
              k content Hc) as (card & Hcard & Hstyle & _).
  exists prs. eexists. exists card.
  split; [exact Hbuild|]. split; [exact Hpage|]. split; [|split; [exact Hcard|]].
  - rewrite (background_layer_decoded b64decode check_image content payload
               (bytes_of img) Hbg Hpne Hcomma Hdec Hchk).
    reflexivity.
  - rewrite Hstyle. unfold PresentationRenderer.background_url.
    now rewrite Hbg, (truthy_nonempty _ Hpne).
Qed.

Lemma provider_image_reaches_both_outputs_witness :
  exists prs card,
    PptxExporter.build
      (fun s => if String.eqb s "QUJD" then Ok "ABC" else Raised BinasciiError)
      (fun _ => Ok tt)
      (App.slide_contents
         ([] ++ generated_slide "One" "first" (KeyEnum WARM_WOOD) "QUJD" :: []))
      (App.deck_style
         ([] ++ generated_slide "One" "first" (KeyEnum WARM_WOOD) "QUJD" :: []))
    = Ok prs
    /\ map head (slides prs)
       = [Some (Picture "ABC" 0 0 PptxExporter.width PptxExporter.height)]
    /\ container
         (App.create_html_preview ""
            ([] ++ generated_slide "One" "first" (KeyEnum WARM_WOOD) "QUJD" :: []))
       !! 0%nat = Some card
    /\ card_style card = "background-image: url('data:image/png;base64,QUJD');".
Proof.
  destruct (provider_image_reaches_both_outputs string Done (fun s => s)
              (fun s => if String.eqb s "QUJD" then Ok "ABC"
                        else Raised BinasciiError)
              (fun _ => Ok tt) ""
              [{| part_text := Some "caption"; part_image := None |};
               {| part_text := None; part_image := Some "ABC" |}]
              "ABC" [] []
              (generated_slide "One" "first" (KeyEnum WARM_WOOD) "QUJD")
              (fun _ _ => eq_refl) eq_refl ltac:(discriminate) eq_refl eq_refl
              eq_refl eq_refl)
    as (_ & _ & prs & page & card & Hbuild & _ & _ & Hcard & Hstyle).
  exists prs, card. split; [exact Hbuild|]. split; [|split; [exact Hcard|exact Hstyle]].
  vm_compute in Hbuild. injection Hbuild as <-. vm_compute. reflexivity.
Defined.

(** ** Badges read back *)

Lemma to_uint_not_Nil n : Nat.to_uint n <> Decimal.Nil.
Proof.
  intros E. pose proof (f_equal Nat.of_uint E) as H.
  rewrite DecimalNat.Unsigned.of_to in H. cbn in H. subst n. discriminate E.
Qed.

Lemma decimal_value_str_nat n : decimal_value (Py.str_nat n) = Some n.
Proof.
  unfold decimal_value, Py.str_nat.
  rewrite (NilZero.usu _ (to_uint_not_Nil n)). cbn [fmap option_fmap option_map].
  now rewrite DecimalNat.Unsigned.of_to.
Qed.

Lemma zfill_badge n :
  decimal_value (Py.zfill 2 (Py.str (Z.of_nat n))) = Some n
  /\ (2 <= String.length (Py.zfill 2 (Py.str (Z.of_nat n))))%nat.
Proof.
  unfold Py.str. destruct (Z.ltb_spec (Z.of_nat n) 0) as [Hneg|_]; [lia|].
  rewrite Zabs2Nat.id. pose proof (decimal_value_str_nat n) as Hv.
  destruct (str_nat_head n) as (a & rest & E & Hp & Hm). rewrite E in *.
  unfold Py.zfill. rewrite Hp, Hm. cbn [orb String.length].
  destruct rest as [|b rest]; cbn [String.length Nat.leb Nat.sub Py.zeros].
  - change ("0" +:+ String a "") with (String "0" (String a "")).
    split; [|cbn; lia].
    unfold decimal_value in *. cbn [NilZero.uint_of_string] in *.
    change (NilEmpty.uint_of_string (String "0" (String a "")))
      with (Decimal.D0 <$> NilEmpty.uint_of_string (String a "")).
    destruct (NilEmpty.uint_of_string (String a "")) as [d|]; [|discriminate Hv].
    exact Hv.
  - split; [exact Hv|cbn; lia].
Qed.

(** X24: a badge reads back as its page: under a well-formed profile, for
    every deck, the badge of the page at position [k] (from 0) and the badge
    of the card at that position are the same text, of at least two
    characters, all decimal digits, denoting [k + 1]; so no two pages of a
    document carry the same badge, however long the deck is. *)
Theorem badge_reads_back_as_position
    (b64decode : string -> Result string)
    (check_image : string -> Result unit)
    (css : string) (slide_contents : list SlideContent) (style : StyleProfile) :
  well_formed style ->
  exists prs,
    PptxExporter.build b64decode check_image slide_contents style = Ok prs
    /\ forall k content, slide_contents !! k = Some content ->
         exists page card text,
           slides prs !! k = Some page
           /\ Pptx.badge_texts page = [text]
           /\ container (PresentationRenderer.render css slide_contents style) !! k
              = Some card
           /\ badge_text card = text
           /\ decimal_value text = Some (k + 1)%nat
           /\ (2 <= String.length text)%nat.
Proof.
  intros Hwf.
  destruct (build_pages b64decode check_image (fun _ _ => Ok tt)
              slide_contents style Hwf) as (prs & Hbuild & _ & _ & Hpages).
  exists prs. split; [exact Hbuild|]. intros k content Hk.
  destruct (Hpages k content Hk) as (c & _ & Hpage).
  destruct (render_card css slide_contents style k content Hk)
    as (card & Hcard & _ & _ & Hbadge & _).
  destruct (page_readings b64decode check_image content (k + 1)
              (length slide_contents) c) as (_ & Hb & _).
  destruct (zfill_badge (k + 1)) as [Hv Hl].
  eexists. exists card. eexists. split; [exact Hpage|]. split; [exact Hb|].
  split; [exact Hcard|]. split; [now rewrite Hbadge, format_02d_zfill|].
  split; [exact Hv | exact Hl].
Qed.

Lemma badge_reads_back_as_position_witness :
  exists prs,
    PptxExporter.build (fun _ => Raised BinasciiError) (fun _ => Ok tt)
      (map (fun k => plain_slide "reasons" "Title" "Body") (seq 0 12))
      METRO_STYLE = Ok prs
    /\ map Pptx.badge_texts (slides prs)
       = [["01"]; ["02"]; ["03"]; ["04"]; ["05"]; ["06"]; ["07"]; ["08"];
          ["09"]; ["10"]; ["11"]; ["12"]].
Proof.
  destruct (badge_reads_back_as_position
              (fun _ => Raised BinasciiError) (fun _ => Ok tt) ""
              (map (fun k => plain_slide "reasons" "Title" "Body") (seq 0 12))
              METRO_STYLE (catalog_well_formed METRO_STYLE (or_introl eq_refl)))
    as (prs & Hbuild & _).
  exists prs. split; [exact Hbuild|].
  vm_compute in Hbuild. injection Hbuild as <-. vm_compute. reflexivity.
Defined.

Lemma progress_row_fits_up_to_47_witness :
  0 <= fst (shape_extent (PptxExporter.progress_dot 1 white 47 1))
  /\ ~ 0 <= fst (shape_extent (PptxExporter.progress_dot 1 white 48 1)).
Proof.
  split.
  - apply (progress_row_fits_up_to_47 1 47 white). lia.
  - intros H. apply (progress_row_fits_up_to_47 1 48 white) in H. lia.
Defined.

Lemma b64encode_shape_witness :
  String.length (Base64.b64encode "image bytes") = 16%nat
  /\ Base64.b64encode "image bytes" <> "".
Proof.
  destruct (b64encode_shape "image bytes") as (Hlen & _ & _ & Hempty).
  split; [exact Hlen|]. intros E. apply Hempty in E. discriminate E.
Defined.
